(** * buildeasy: the module-to-singleton transformer, verified against its specification

    A shallow embedding of [buildeasy/buildeasy.py] (class [FileAsClass]):
    the subclass hook [__init_subclass__] that turns a module into a cached
    singleton instance, the plugin scanner, the pickle helpers and the
    attribute lookup override.

    Python objects live in a heap of attribute dictionaries and are named by
    their location, so that "the same instance" is equality of locations.
    The process-wide tables [sys.modules] and [FileAsClass._cache] are finite
    maps from module names to locations.  Exceptions are values: every
    operation returns a [result] next to the state it leaves behind. *)

From stdpp Require Import gmap strings list fin_maps.
From Stdlib Require Import Ascii.

Set Warnings "-register-all".

(** ** Exceptions *)

(** The exception classes the code raises, catches or lets through.  The last
    three derive from [BaseException] only; every other class derives from
    [Exception].  [ExcOther] is any further class deriving from [Exception]
    and from none of the named ones. *)
Inductive exn_class :=
  | ExcTypeError
  | ExcRuntimeError
  | ExcRecursionError
  | ExcKeyError
  | ExcIndexError
  | ExcAttributeError
  | ExcValueError
  | ExcModuleNotFoundError
  | ExcFileNotFoundError
  | ExcEOFError
  | ExcTransformationError
  | ExcOther (name : string)
  | ExcSystemExit
  | ExcKeyboardInterrupt
  | ExcGeneratorExit.

(** An exception instance: its class, [str(e)], and [e.__cause__] as set by
    [raise ... from e]. *)
Inductive py_exn :=
  | Exn (c : exn_class) (msg : string) (cause : option py_exn).

Definition exn_cls (e : py_exn) : exn_class := let 'Exn c _ _ := e in c.
Definition exn_str (e : py_exn) : string := let 'Exn _ m _ := e in m.
Definition exn_cause (e : py_exn) : option py_exn := let 'Exn _ _ c := e in c.

(** [isinstance(e, Exception)], the filter of [except Exception]. *)
Definition is_Exception (e : py_exn) : bool :=
  match exn_cls e with
  | ExcSystemExit | ExcKeyboardInterrupt | ExcGeneratorExit => false
  | _ => true
  end.

(** [isinstance(e, TypeError)], the filter of [except TypeError]. *)
Definition is_TypeError (e : py_exn) : bool :=
  match exn_cls e with ExcTypeError => true | _ => false end.

(** [isinstance(e, AttributeError)], the filter of [except AttributeError]
    and of [hasattr]. *)
Definition is_AttributeError (e : py_exn) : bool :=
  match exn_cls e with ExcAttributeError => true | _ => false end.

Inductive result (A : Type) :=
  | Ok (a : A)
  | Raise (e : py_exn).
Arguments Ok {A} a.
Arguments Raise {A} e.

(** ** Values and objects *)

Definition loc := nat.

Inductive value :=
  | VNone
  | VInt (z : Z)
  | VStr (s : string)
  | VTuple (items : list value)
  | VList (items : list value)
  | VFunction (qualname : string)
  | VStaticMethod (qualname : string)
  | VClassMethod (qualname : string)
  | VRef (l : loc)
  | VOpaque (repr : string).

(** [VRef l] is a reference to the heap object at [l]; [VOpaque] stands for
    any other object (a dict, a loader, a module spec) that is neither
    callable, nor a tuple, nor a static or class method. *)

(** [callable(v)].  Plain functions are callable; a [staticmethod] object is
    callable (Python 3.10 and later) and a [classmethod] object is not. *)
Definition callable (v : value) : bool :=
  match v with
  | VFunction _ | VStaticMethod _ => true
  | _ => false
  end.

Definition is_staticmethod (v : value) : bool :=
  match v with VStaticMethod _ => true | _ => false end.

Definition is_classmethod (v : value) : bool :=
  match v with VClassMethod _ => true | _ => false end.

Definition is_tuple (v : value) : bool :=
  match v with VTuple _ => true | _ => false end.

(** An object on the heap: the name of its class and its [__dict__]. *)
Record py_object := {
  obj_class : string;
  obj_dict : gmap string value;
}.

(** ** Strings *)

(** [s.startswith(pre)] *)
Definition startswith (s pre : string) : bool := String.prefix pre s.

(** [s.endswith(suf)] *)
Definition endswith (s suf : string) : bool :=
  (String.length suf <=? String.length s)%nat &&
  String.eqb
    (String.substring (String.length s - String.length suf)
       (String.length suf) s)
    suf.

(** [s[:-3]]: everything but the last three characters, the empty string when
    there are fewer than three. *)
Definition slice_to_minus3 (s : string) : string :=
  String.substring 0 (String.length s - 3) s.

(** ** Classes *)

(** One entry of [inspect.signature(f).parameters]: [p_default = None] is
    [param.default is param.empty]. *)
Record parameter := {
  p_name : string;
  p_default : option value;
}.

(** A class as the method-resolution-order walk sees it: its identity and the
    items of its [__dict__] in definition order. *)
Record py_type := {
  ty_id : nat;
  ty_name : string;
  ty_dict : list (string * value);
}.

(** A class being defined as a subclass of [FileAsClass].
    - [cls_ancestors] is [cls.__mro__[1:]]: [FileAsClass], any mixins, [object];
    - [cls_init_signature] is
      [list(inspect.signature(cls.__init__).parameters.values())], [self] first;
    - [cls_new init_args] is the call [cls( **init_args)]: the attributes
      [__init__] leaves on the new object, or the exception it raises;
    - [cls_parent_hook] is the [__init_subclass__] that
      [super().__init_subclass__] resolves to when a class after [FileAsClass]
      in the MRO defines one ([None]: it resolves to [object]'s). *)
Record py_class := {
  cls_id : nat;
  cls_name : string;
  cls_dict : list (string * value);
  cls_ancestors : list py_type;
  cls_init_signature : list parameter;
  cls_new : gmap string value → result (gmap string value);
  cls_parent_hook : option (gmap string value → option py_exn);
}.

Definition cls_self (cls : py_class) : py_type :=
  {| ty_id := cls_id cls; ty_name := cls_name cls; ty_dict := cls_dict cls |}.

(** [cls.__mro__] *)
Definition cls_mro (cls : py_class) : list py_type :=
  cls_self cls :: cls_ancestors cls.

(** ** Process state *)

(** One call [cls( **init_args)] made by the transformer: the module it was made
    for, the class, the arguments passed and the instance obtained ([None]
    when the constructor raised).  The log is a ghost field: the code does not
    read it. *)
Record instantiation := {
  inst_module : string;
  inst_class : string;
  inst_args : gmap string value;
  inst_result : option loc;
}.

(** The content of a file, as bytes.  A file opened for writing and never
    written is empty. *)
Definition file_data := string.

Definition FileEmpty : file_data := EmptyString.

Record state := {
  sys_modules : gmap string loc;      (* sys.modules *)
  _cache : gmap string loc;           (* FileAsClass._cache *)
  heap : list py_object;
  stdout : list string;               (* lines written by print *)
  files : gmap string file_data;
  instantiations : list instantiation;
}.

Definition set_sys_modules (f : gmap string loc → gmap string loc) (st : state) : state :=
  {| sys_modules := f (sys_modules st); _cache := _cache st; heap := heap st;
     stdout := stdout st; files := files st;
     instantiations := instantiations st |}.

Definition set_cache (f : gmap string loc → gmap string loc) (st : state) : state :=
  {| sys_modules := sys_modules st; _cache := f (_cache st); heap := heap st;
     stdout := stdout st; files := files st;
     instantiations := instantiations st |}.

Definition set_heap (f : list py_object → list py_object) (st : state) : state :=
  {| sys_modules := sys_modules st; _cache := _cache st; heap := f (heap st);
     stdout := stdout st; files := files st;
     instantiations := instantiations st |}.

Definition set_files (f : gmap string file_data → gmap string file_data) (st : state) : state :=
  {| sys_modules := sys_modules st; _cache := _cache st; heap := heap st;
     stdout := stdout st; files := f (files st);
     instantiations := instantiations st |}.

(** [print(line)] *)
Definition print (line : string) (st : state) : state :=
  {| sys_modules := sys_modules st; _cache := _cache st; heap := heap st;
     stdout := stdout st ++ [line]; files := files st;
     instantiations := instantiations st |}.

Definition log_instantiation (i : instantiation) (st : state) : state :=
  {| sys_modules := sys_modules st; _cache := _cache st; heap := heap st;
     stdout := stdout st; files := files st;
     instantiations := instantiations st ++ [i] |}.

(** ** The transformer: [FileAsClass.__init_subclass__] *)

(** [object.__init_subclass__( **kwargs)]: does nothing, and raises when it is
    given any argument. *)
Definition object_init_subclass (cls : py_class) (kwargs : gmap string value)
  : option py_exn :=
  match size kwargs with
  | 0 => None
  | S _ =>
      Some (Exn ExcTypeError
              (cls_name cls +:+ ".__init_subclass__() takes no keyword arguments")
              None)
  end.

(** Line 39: [super().__init_subclass__( **init_kwargs)]. *)
Definition super_init_subclass (cls : py_class) (init_kwargs : gmap string value)
  : option py_exn :=
  match cls_parent_hook cls with
  | Some hook => hook init_kwargs
  | None => object_init_subclass cls init_kwargs
  end.

(** Lines 60-65, the body of the loop over the parameters. *)
Definition init_arg (init_kwargs : gmap string value) (param : parameter) : value :=
  match init_kwargs !! p_name param with
  | Some v => v
  | None =>
      match p_default param with
      | Some d => d
      | None => VNone
      end
  end.

(** Lines 55-65: [parameters] skips [self]; [init_args] is filled in
    parameter order. *)
Definition parameters (cls : py_class) : list parameter :=
  tail (cls_init_signature cls).

Definition build_init_args (params : list parameter) (init_kwargs : gmap string value)
  : gmap string value :=
  foldl (λ init_args param, <[p_name param := init_arg init_kwargs param]> init_args)
        ∅ params.

(** The test of lines 77 and 99. *)
Definition is_public_callable (item : string * value) : bool :=
  callable item.2 && negb (startswith item.1 "_").

(** Lines 75-78. *)
Definition public_methods (cls : py_class) : list string :=
  (filter (λ item, is_public_callable item = true) (cls_dict cls)).*1.

(** [setattr(instance, name, v)] on the instance's attribute dictionary. *)
Definition setattr (name : string) (v : value) (d : gmap string value)
  : gmap string value := <[name := v]> d.

(** Lines 81-85. *)
Definition inject_static_and_class_methods (cls : py_class) (d : gmap string value)
  : gmap string value :=
  foldl (λ d item,
           if is_staticmethod item.2 then setattr item.1 item.2 d
           else if is_classmethod item.2 then setattr item.1 item.2 d
           else d)
        d (cls_dict cls).

(** [getattr(module, attr, None)] for the object found in [sys.modules]. *)
Definition getattr_or_None (h : list py_object) (module : loc) (attr : string) : value :=
  match h !! module with
  | Some o => default VNone (obj_dict o !! attr)
  | None => VNone
  end.

Definition module_attributes : list string :=
  ["__name__"; "__package__"; "__loader__"; "__spec__"; "__file__"].

(** Lines 92-93. *)
Definition copy_module_attributes (h : list py_object) (module : loc)
    (d : gmap string value) : gmap string value :=
  foldl (λ d attr, setattr attr (getattr_or_None h module attr) d)
        d module_attributes.

(** Lines 98-100 for one base class. *)
Definition copy_public_callables (items : list (string * value))
    (d : gmap string value) : gmap string value :=
  foldl (λ d item, if is_public_callable item then setattr item.1 item.2 d else d)
        d items.

(** Lines 96-100: the walk over [cls.__mro__], skipping [cls] itself. *)
Definition merge_ancestors (cls : py_class) (d : gmap string value)
  : gmap string value :=
  foldl (λ d base_cls,
           if decide (ty_id base_cls ≠ cls_id cls)
           then copy_public_callables (ty_dict base_cls) d
           else d)
        d (cls_mro cls).

(** Lines 74-100: everything done to the fresh instance, at location [inst],
    whose constructor left the attributes [d]. *)
Definition dress_instance (cls : py_class) (h : list py_object) (module inst : loc)
    (d : gmap string value) : gmap string value :=
  let d := inject_static_and_class_methods cls d in
  let d := setattr "__all__" (VList (VStr <$> (public_methods cls ++ ["instance"]))) d in
  let d := setattr "instance" (VRef inst) d in
  let d := copy_module_attributes h module d in
  merge_ancestors cls d.

(** Line 47, [sys.modules[module_name]]: a name that is not a key raises
    [KeyError]; a list is not hashable. *)
Definition lookup_module (module_name : value) (st : state) : result (string * loc) :=
  match module_name with
  | VStr name =>
      match sys_modules st !! name with
      | Some module => Ok (name, module)
      | None => Raise (Exn ExcKeyError ("'" +:+ name +:+ "'") None)
      end
  | VList _ => Raise (Exn ExcTypeError "unhashable type: 'list'" None)
  | _ => Raise (Exn ExcKeyError "" None)
  end.

(** Lines 54-106, once the module is known not to be cached. *)
Definition transform_uncached (cls : py_class) (init_kwargs : gmap string value)
    (name : string) (module : loc) (st : state) : result loc * state :=
  let init_args := build_init_args (parameters cls) init_kwargs in
  match cls_new cls init_args with
  | Raise e =>
      let st := log_instantiation
                  {| inst_module := name; inst_class := cls_name cls;
                     inst_args := init_args; inst_result := None |} st in
      if is_TypeError e
      then (Raise (Exn ExcTransformationError
                     ("Error instantiating " +:+ cls_name cls +:+ ": " +:+ exn_str e)
                     (Some e)), st)
      else (Raise e, st)
  | Ok d =>
      let inst := length (heap st) in
      let st := log_instantiation
                  {| inst_module := name; inst_class := cls_name cls;
                     inst_args := init_args; inst_result := Some inst |} st in
      let instance :=
        {| obj_class := cls_name cls;
           obj_dict := dress_instance cls (heap st) module inst d |} in
      let st := set_heap (λ h, h ++ [instance]) st in
      let st := set_sys_modules <[name := inst]> st in
      let st := set_cache <[name := inst]> st in
      (Ok inst, st)
  end.

(** [FileAsClass.__init_subclass__(cls, **init_kwargs)], called from a frame
    whose globals are [f_globals]. *)
Definition init_subclass (cls : py_class) (init_kwargs f_globals : gmap string value)
    (st : state) : result loc * state :=
  match super_init_subclass cls init_kwargs with
  | Some e => (Raise e, st)
  | None =>
      match default VNone (f_globals !! "__name__") with
      | VNone =>
          (Raise (Exn ExcRuntimeError
                    "Cannot determine module name from caller's frame." None), st)
      | module_name =>
          match lookup_module module_name st with
          | Raise e => (Raise e, st)
          | Ok (name, module) =>
              match _cache st !! name with
              | Some cached => (Ok cached, st)
              | None => transform_uncached cls init_kwargs name module st
              end
          end
      end
  end.

(** ** The classes of the repository *)

(** [object]: every name in its [__dict__] starts with an underscore. *)
Definition object_type : py_type :=
  {| ty_id := 0; ty_name := "object";
     ty_dict := [("__init__", VFunction "object.__init__");
                 ("__getattribute__", VFunction "object.__getattribute__");
                 ("__init_subclass__", VClassMethod "object.__init_subclass__")] |}.

(** [FileAsClass.__dict__], in the order of the class body. *)
Definition FileAsClass_type : py_type :=
  {| ty_id := 1; ty_name := "FileAsClass";
     ty_dict := [("__module__", VStr "buildeasy.buildeasy");
                 ("_cache", VOpaque "dict");
                 ("__init_subclass__", VClassMethod "FileAsClass.__init_subclass__");
                 ("add_dynamic_method", VFunction "FileAsClass.add_dynamic_method");
                 ("load_from_cache", VStaticMethod "FileAsClass.load_from_cache");
                 ("__getstate__", VFunction "FileAsClass.__getstate__");
                 ("__setstate__", VFunction "FileAsClass.__setstate__");
                 ("save_to_file", VClassMethod "FileAsClass.save_to_file");
                 ("load_from_file", VClassMethod "FileAsClass.load_from_file");
                 ("scan_for_plugins", VClassMethod "FileAsClass.scan_for_plugins");
                 ("__getattribute__", VFunction "FileAsClass.__getattribute__")] |}.

(** [my_module.py]: [class MyModule(FileAsClass)] with
    [__init__(self, name="buildeasy")], which sets [self.name = name]. *)
Definition MyModule : py_class :=
  {| cls_id := 2; cls_name := "MyModule";
     cls_dict := [("__module__", VStr "my_module");
                  ("__init__", VFunction "MyModule.__init__");
                  ("greet", VFunction "MyModule.greet")];
     cls_ancestors := [FileAsClass_type; object_type];
     cls_init_signature :=
       [ {| p_name := "self"; p_default := None |};
         {| p_name := "name"; p_default := Some (VStr "buildeasy") |} ];
     cls_new := λ init_args,
       if decide (dom init_args ⊆ ({["name"]} : gset string))
       then Ok {["name" := default (VStr "buildeasy") (init_args !! "name")]}
       else Raise (Exn ExcTypeError
                     "MyModule.__init__() got an unexpected keyword argument" None);
     cls_parent_hook := None |}.

(** A module object as the import system creates it. *)
Definition module_object (name : string) : py_object :=
  {| obj_class := "module";
     obj_dict := {[ "__name__" := VStr name;
                    "__package__" := VStr "";
                    "__loader__" := VOpaque "SourceFileLoader";
                    "__spec__" := VOpaque "ModuleSpec";
                    "__file__" := VStr (name +:+ ".py") ]} |}.

(** The globals of the frame that runs a module's body. *)
Definition module_globals (name : string) : gmap string value :=
  {[ "__name__" := VStr name ]}.

(** A fresh process: no module imported, nothing transformed. *)
Definition initial_state : state :=
  {| sys_modules := ∅; _cache := ∅; heap := []; stdout := [];
     files := ∅; instantiations := [] |}.

(** The state in which the body of [my_module.py] starts to run: the import
    system has created the module object and entered it in [sys.modules]. *)
Definition my_module_loading : state :=
  {| sys_modules := {[ "my_module" := 0 ]}; _cache := ∅;
     heap := [module_object "my_module"]; stdout := [];
     files := ∅; instantiations := [] |}.

(** ** The attribute lookup override: [FileAsClass.__getattribute__] *)

(** [v[0]] *)
Definition subscript0 (v : value) : result value :=
  match v with
  | VTuple (x :: _) => Ok x
  | VTuple [] => Raise (Exn ExcIndexError "tuple index out of range" None)
  | VList (x :: _) => Ok x
  | VList [] => Raise (Exn ExcIndexError "list index out of range" None)
  | VStr (String c _) => Ok (VStr (String c ""))
  | VStr "" => Raise (Exn ExcIndexError "string index out of range" None)
  | _ => Raise (Exn ExcTypeError "object is not subscriptable" None)
  end.

(** [FileAsClass.__getattribute__(self, name)].

    [normal t name] is the outcome of [super().__getattribute__(name)] when
    [t] such lookups have been made on the instance before: a lookup can run
    a descriptor of the class, so two lookups need not agree.

    [hasattr(self, name)] and [getattr(self, name)] go through the class's
    [__getattribute__], that is through this function again; [depth] is the
    number of frames the interpreter still allows (its recursion limit), and
    running out of them raises [RecursionError].  [hasattr] turns an
    [AttributeError] into [False] and lets any other exception through. *)
Fixpoint getattribute (class_name : string) (normal : nat → string → result value)
    (depth : nat) (name : string) (t : nat) : result value * nat :=
  match depth with
  | 0 => (Raise (Exn ExcRecursionError "maximum recursion depth exceeded" None), t)
  | S depth =>
      match normal t name with
      | Ok v => (Ok v, S t)
      | Raise e =>
          if is_AttributeError e then
            match getattribute class_name normal depth name (S t) with
            | (Ok _, t) =>
                match getattribute class_name normal depth name t with
                | (Raise e, t) => (Raise e, t)
                | (Ok v, t) =>
                    if is_tuple v then
                      match getattribute class_name normal depth name t with
                      | (Raise e, t) => (Raise e, t)
                      | (Ok v, t) => (subscript0 v, t)
                      end
                    else getattribute class_name normal depth name t
                end
            | (Raise e, t) =>
                if is_AttributeError e then
                  (Raise (Exn ExcAttributeError
                            ("'" +:+ class_name +:+ "' object has no attribute '"
                               +:+ name +:+ "'") None), t)
                else (Raise e, t)
            end
          else (Raise e, S t)
      end
  end.

(** The lookup of an instance whose attributes are exactly [d] and whose class
    has no descriptors: every call gives the same answer. *)
Definition dict_lookup (class_name : string) (d : gmap string value)
  : nat → string → result value :=
  λ _ name,
    match d !! name with
    | Some v => Ok v
    | None =>
        Raise (Exn ExcAttributeError
                 ("'" +:+ class_name +:+ "' object has no attribute '" +:+ name +:+ "'")
                 None)
    end.

(** The lookups of the object at [self]: its own attributes. *)
Definition object_lookup (st : state) (self : loc) : nat → string → result value :=
  match heap st !! self with
  | Some o => dict_lookup (obj_class o) (obj_dict o)
  | None => dict_lookup "object" ∅
  end.

(** ** Importing modules *)

(** The body of a module file, as far as the transformer is concerned: class
    statements that extend [FileAsClass] (with their keyword arguments) and
    statements that raise.  Anything else a module does is skipped. *)
Inductive stmt :=
  | StmtClass (cls : py_class) (init_kwargs : gmap string value)
  | StmtRaise (e : py_exn).

(** Runs a module body in a frame whose [__name__] is [name].  A class
    statement calls the hook; its return value is discarded by the class
    machinery, its exception ends the body. *)
Fixpoint exec_body (name : string) (body : list stmt) (st : state)
  : option py_exn * state :=
  match body with
  | [] => (None, st)
  | StmtRaise e :: _ => (Some e, st)
  | StmtClass cls init_kwargs :: rest =>
      match init_subclass cls init_kwargs (module_globals name) st with
      | (Raise e, st) => (Some e, st)
      | (Ok _, st) => exec_body name rest st
      end
  end.

(** The import system of the model knows source files only: [finder] is what
    it finds under a module name, the body of a file or nothing.  No
    directory is a package, so a search below a parent's [__path__] finds
    nothing. *)

(** Loading a module that is not in [sys.modules]: without a file the import
    fails; otherwise a module object is entered in [sys.modules], the body
    runs, and the entry is removed again when the body raises.  The result is
    whatever [sys.modules] holds afterwards. *)
Definition load_module (finder : string → option (list stmt))
    (module_name : string) (st : state) : result loc * state :=
  match finder module_name with
  | None =>
      (Raise (Exn ExcModuleNotFoundError
                ("No module named '" +:+ module_name +:+ "'") None), st)
  | Some body =>
      let module := length (heap st) in
      let st := set_heap (λ h, h ++ [module_object module_name]) st in
      let st := set_sys_modules <[module_name := module]> st in
      match exec_body module_name body st with
      | (Some e, st) => (Raise e, set_sys_modules (delete module_name) st)
      | (None, st) =>
          (Ok (default module (sys_modules st !! module_name)), st)
      end
  end.

(** [__import__(module_name)] for a top-level module, a name without a dot.
    A module already in [sys.modules] is returned as it is; otherwise it is
    loaded. *)
Definition import_module (finder : string → option (list stmt))
    (module_name : string) (st : state) : result loc * state :=
  if decide (module_name = "") then
    (Raise (Exn ExcValueError "Empty module name" None), st)
  else
    match sys_modules st !! module_name with
    | Some module => (Ok module, st)
    | None => load_module finder module_name st
    end.

(** Names with dots.  Line 202 cuts three characters whatever the extension
    is, so the name handed to [__import__] can contain dots, and the import
    system then takes it for a module inside a package. *)

(** What precedes the first dot of [name], when it has a dot. *)
Fixpoint before_first_dot (name : string) : option string :=
  match name with
  | EmptyString => None
  | String c rest =>
      if decide (c = "."%char) then Some EmptyString
      else String c <$> before_first_dot rest
  end.

(** What precedes the last dot of [name], when it has a dot. *)
Fixpoint before_last_dot (name : string) : option string :=
  match name with
  | EmptyString => None
  | String c rest =>
      match before_last_dot rest with
      | Some parent => Some (String c parent)
      | None => if decide (c = "."%char) then Some EmptyString else None
      end
  end.

(** [name.rpartition('.')[0]]: the empty string when [name] has no dot. *)
Definition parent_of (name : string) : string :=
  default EmptyString (before_last_dot name).

(** [sys.getrecursionlimit()] *)
Definition recursion_limit : nat := 1000.

(** [obj.name] for the object at [l], as the import system reads
    [__path__].  A module object answers from its own attributes.  Every
    other object of the model is an instance of [FileAsClass] or of a
    subclass: the lookup goes through [FileAsClass.__getattribute__], with
    the object's own attributes as the normal lookup (its class is taken to
    define no attribute of that name). *)
Definition object_getattr (st : state) (l : loc) (name : string) : result value :=
  match heap st !! l with
  | Some o =>
      if decide (obj_class o = "module") then object_lookup st l 0 name
      else (getattribute (obj_class o) (object_lookup st l) recursion_limit name 0).1
  | None => object_lookup st l 0 name
  end.

(** The search for [name] below its parent, once the parent is imported
    (importlib's [_find_and_load_unlocked]).  The parent found in
    [sys.modules] is asked for its [__path__]: an [AttributeError] means it
    is no package, any other exception leaves the import.  With a
    [__path__], the search finds nothing. *)
Definition find_in_package (name parent : string) (st : state)
  : result loc * state :=
  match sys_modules st !! name with
  | Some module => (Ok module, st)
  | None =>
      match sys_modules st !! parent with
      | None => (Raise (Exn ExcKeyError ("'" +:+ parent +:+ "'") None), st)
      | Some parent_module =>
          match object_getattr st parent_module "__path__" with
          | Raise e =>
              if is_AttributeError e
              then (Raise (Exn ExcModuleNotFoundError
                             ("No module named '" +:+ name +:+ "'; '" +:+ parent
                                +:+ "' is not a package") None), st)
              else (Raise e, st)
          | Ok _ =>
              (Raise (Exn ExcModuleNotFoundError
                        ("No module named '" +:+ name +:+ "'") None), st)
          end
      end
  end.

(** importlib's [_find_and_load]: a name found in [sys.modules] is answered
    from there.  Otherwise a name with a parent has its parent imported
    first, unless [sys.modules] has it, and is then searched below the
    parent; a name without a parent is loaded from its file.  [fuel] bounds
    the chain of parents: the length of the name is enough, since a parent is
    shorter than its child. *)
Fixpoint find_and_load (finder : string → option (list stmt)) (fuel : nat)
    (name : string) (st : state) : result loc * state :=
  match sys_modules st !! name with
  | Some module => (Ok module, st)
  | None =>
      match fuel with
      | 0 => load_module finder name st
      | S fuel =>
          let parent := parent_of name in
          if decide (parent = "") then load_module finder name st
          else
            match sys_modules st !! parent with
            | Some _ => find_in_package name parent st
            | None =>
                match find_and_load finder fuel parent st with
                | (Raise e, st) => (Raise e, st)
                | (Ok _, st) => find_in_package name parent st
                end
            end
      end
  end.

(** The builtin [__import__(name)], as line 204 calls it.  For a name with
    dots the module returned is the top-level one, imported by the name in
    front of the first dot. *)
Definition __import__ (finder : string → option (list stmt))
    (name : string) (st : state) : result loc * state :=
  if decide (name = "") then
    (Raise (Exn ExcValueError "Empty module name" None), st)
  else
    match find_and_load finder (String.length name) name st with
    | (Raise e, st) => (Raise e, st)
    | (Ok module, st) =>
        match before_first_dot name with
        | None => (Ok module, st)
        | Some front => import_module finder front st
        end
    end.

(** ** The plugin scanner: [FileAsClass.scan_for_plugins] *)

(** [FileAsClass(module)].  The class defines neither [__new__] nor [__init__],
    so [object]'s are used, and they refuse any argument. *)
Definition FileAsClass_call (args : list value) (st : state) : result loc * state :=
  match args with
  | [] =>
      (Ok (length (heap st)),
       set_heap (λ h, h ++ [{| obj_class := "FileAsClass"; obj_dict := ∅ |}]) st)
  | _ :: _ =>
      (Raise (Exn ExcTypeError "FileAsClass() takes no arguments" None), st)
  end.

(** Lines 204-205, the body of the [try]. *)
Definition load_plugin (finder : string → option (list stmt))
    (module_name : string) (st : state) : option py_exn * state :=
  match __import__ finder module_name st with
  | (Raise e, st) => (Some e, st)
  | (Ok module, st) =>
      match FileAsClass_call [VRef module] st with
      | (Raise e, st) => (Some e, st)
      | (Ok _, st) => (None, st)
      end
  end.

(** Line 208. *)
Definition failure_notice (module_name : string) (e : py_exn) : string :=
  "Failed to load plugin " +:+ module_name +:+ ": " +:+ exn_str e.

(** Lines 200-208 over the entries [os.listdir(directory)] returned. *)
Fixpoint scan_entries (finder : string → option (list stmt))
    (entries : list string) (extension : string) (st : state)
  : option py_exn * state :=
  match entries with
  | [] => (None, st)
  | filename :: rest =>
      if endswith filename extension then
        let module_name := slice_to_minus3 filename in
        match load_plugin finder module_name st with
        | (None, st) => scan_entries finder rest extension st
        | (Some e, st) =>
            if is_Exception e
            then scan_entries finder rest extension
                   (print (failure_notice module_name e) st)
            else (Some e, st)
        end
      else scan_entries finder rest extension st
  end.

(** [FileAsClass.scan_for_plugins(directory, extension)].  [listdir] is the
    result of [os.listdir(directory)]: [None] when the directory cannot be
    listed. *)
Definition scan_for_plugins (finder : string → option (list stmt))
    (listdir : option (list string)) (extension : string) (st : state)
  : option py_exn * state :=
  match listdir with
  | None => (Some (Exn ExcFileNotFoundError "No such file or directory" None), st)
  | Some entries => scan_entries finder entries extension st
  end.

(** ** The serializer: [save_to_file] and [load_from_file] *)

(** The first value bound to [name] in a [__dict__]. *)
Fixpoint dict_get (name : string) (items : list (string * value)) : option value :=
  match items with
  | [] => None
  | (k, v) :: rest => if decide (k = name) then Some v else dict_get name rest
  end.

(** [items[name] = v] *)
Fixpoint dict_set (name : string) (v : value) (items : list (string * value))
  : list (string * value) :=
  match items with
  | [] => [(name, v)]
  | (k, w) :: rest =>
      if decide (k = name) then (k, v) :: rest else (k, w) :: dict_set name v rest
  end.

(** Attribute lookup on a class: the first [__dict__] along the MRO that has
    the name. *)
Fixpoint mro_lookup (name : string) (mro : list py_type) : option value :=
  match mro with
  | [] => None
  | ty :: rest =>
      match dict_get name (ty_dict ty) with
      | Some v => Some v
      | None => mro_lookup name rest
      end
  end.

(** [cls.name], read on the class object. *)
Definition class_getattr (cls : py_class) (name : string) : result value :=
  match mro_lookup name (cls_mro cls) with
  | Some v => Ok v
  | None =>
      Raise (Exn ExcAttributeError
               ("type object '" +:+ cls_name cls +:+ "' has no attribute '"
                  +:+ name +:+ "'") None)
  end.

(** [cls.name = v], written on the class object. *)
Definition class_setattr (cls : py_class) (name : string) (v : value) : py_class :=
  {| cls_id := cls_id cls; cls_name := cls_name cls;
     cls_dict := dict_set name v (cls_dict cls);
     cls_ancestors := cls_ancestors cls;
     cls_init_signature := cls_init_signature cls;
     cls_new := cls_new cls; cls_parent_hook := cls_parent_hook cls |}.

(** [__getstate__]: a copy of the instance's [__dict__]. *)
Definition getstate (o : py_object) : gmap string value := obj_dict o.

(** [__setstate__]: [self.__dict__.update(state)]. *)
Definition setstate (state : gmap string value) (o : py_object) : py_object :=
  {| obj_class := obj_class o; obj_dict := state ∪ obj_dict o |}.

(** The [pickle] library is not part of the repository; the model takes it
    as given.  [pickle_dump st v] is [pickle.dump(v, f)] in the state [st]:
    the bytes that reach the file and the exception raised, if any.
    [pickle_load st bytes] is [pickle.load(f)] on a file that is not empty:
    the objects it builds and the value it returns, or the exception it
    raises.  Neither changes the tables. *)
Record pickle_library := {
  pickle_dump : state → value → file_data * option py_exn;
  pickle_load : state → file_data → result (list py_object * value);
}.

(** [cls.save_to_file(filename)].  The file is opened for writing, which
    creates or empties it, before [cls.instance] is evaluated. *)
Definition save_to_file (pickle : pickle_library) (cls : py_class)
    (filename : string) (st : state) : result unit * state :=
  let st := set_files <[filename := FileEmpty]> st in
  match class_getattr cls "instance" with
  | Raise e => (Raise e, st)
  | Ok v =>
      let written := pickle_dump pickle st v in
      let st := set_files <[filename := written.1]> st in
      match written.2 with
      | Some e => (Raise e, st)
      | None => (Ok (), st)
      end
  end.

(** [cls.load_from_file(filename)].  [pickle.load] of an empty file raises
    [EOFError].  The class is returned with its [instance] attribute
    rebound. *)
Definition load_from_file (pickle : pickle_library) (cls : py_class)
    (filename : string) (st : state) : result py_class * state :=
  match files st !! filename with
  | None => (Raise (Exn ExcFileNotFoundError filename None), st)
  | Some content =>
      if decide (content = FileEmpty)
      then (Raise (Exn ExcEOFError "Ran out of input" None), st)
      else
        match pickle_load pickle st content with
        | Raise e => (Raise e, st)
        | Ok (objects, v) =>
            (Ok (class_setattr cls "instance" v),
             set_heap (λ h, h ++ objects) st)
        end
  end.

(** A [pickle] that refuses every value, for the examples in which the
    library is not reached. *)
Definition refusing_pickle : pickle_library :=
  {| pickle_dump := λ _ _,
       (FileEmpty, Some (Exn (ExcOther "PicklingError") "Can't pickle" None));
     pickle_load := λ _ _,
       Raise (Exn (ExcOther "UnpicklingError") "invalid load key" None) |}.

(** [FileAsClass.load_from_cache(module_name)] *)
Definition load_from_cache (module_name : string) (st : state) : option loc :=
  _cache st !! module_name.

(** ** Runs of the process *)

(** What a process does with [FileAsClass]: it executes class statements that
    extend it, imports modules, scans plugin directories, saves and loads. *)
Inductive op :=
  | OpClass (cls : py_class) (init_kwargs f_globals : gmap string value)
  | OpImport (finder : string → option (list stmt)) (module_name : string)
  | OpScan (finder : string → option (list stmt)) (listdir : option (list string))
      (extension : string)
  | OpSave (pickle : pickle_library) (cls : py_class) (filename : string)
  | OpLoad (pickle : pickle_library) (cls : py_class) (filename : string).

Definition run_op (st : state) (o : op) : state :=
  match o with
  | OpClass cls init_kwargs f_globals => (init_subclass cls init_kwargs f_globals st).2
  | OpImport finder module_name => (__import__ finder module_name st).2
  | OpScan finder listdir extension => (scan_for_plugins finder listdir extension st).2
  | OpSave pickle cls filename => (save_to_file pickle cls filename st).2
  | OpLoad pickle cls filename => (load_from_file pickle cls filename st).2
  end.

Definition run (ops : list op) (st : state) : state := foldl run_op st ops.


(** The instances the transformer has created so far, with the module each
    was created for: the successful calls in the instantiation log. *)
Definition created (st : state) : list (string * loc) :=
  omap (λ i, (λ l, (inst_module i, l)) <$> inst_result i) (instantiations st).

(** The calls [cls( **init_args)] made between two states. *)
Definition new_instantiations (st st' : state) : list instantiation :=
  drop (length (instantiations st)) (instantiations st').

(** The module name cannot be resolved: the frame's globals have no
    [__name__], or it is [None]. *)
Definition unresolved (f_globals : gmap string value) : Prop :=
  default VNone (f_globals !! "__name__") = VNone.

(** ** Further example classes *)

(** [cls] with another constructor. *)
Definition with_constructor (cls : py_class)
    (new : gmap string value → result (gmap string value)) : py_class :=
  {| cls_id := cls_id cls; cls_name := cls_name cls; cls_dict := cls_dict cls;
     cls_ancestors := cls_ancestors cls;
     cls_init_signature := cls_init_signature cls;
     cls_new := new; cls_parent_hook := cls_parent_hook cls |}.

(** A subclass whose [__init__] raises [ValueError]. *)
Definition Misconfigured : py_class :=
  with_constructor MyModule (λ _, Raise (Exn ExcValueError "bad configuration" None)).

(** A mixin placed after [FileAsClass] in the bases, whose
    [__init_subclass__] accepts and ignores any keyword argument, and which
    defines a public method [greet] of its own and a method [describe]. *)
Definition Mixin_type : py_type :=
  {| ty_id := 3; ty_name := "Mixin";
     ty_dict := [("__init_subclass__", VClassMethod "Mixin.__init_subclass__");
                 ("greet", VFunction "Mixin.greet");
                 ("describe", VFunction "Mixin.describe")] |}.

(** A second mixin, further down the MRO, with its own [describe]. *)
Definition Base_type : py_type :=
  {| ty_id := 4; ty_name := "Base";
     ty_dict := [("describe", VFunction "Base.describe");
                 ("_helper", VFunction "Base._helper")] |}.

(** [class Mixed(FileAsClass, Mixin, Base)] whose
    [__init__(self, name="buildeasy", level=1, owner)] stores its arguments. *)
Definition Mixed : py_class :=
  {| cls_id := 5; cls_name := "Mixed";
     cls_dict := [("__module__", VStr "mixed");
                  ("__init__", VFunction "Mixed.__init__")];
     cls_ancestors := [FileAsClass_type; Mixin_type; Base_type; object_type];
     cls_init_signature :=
       [ {| p_name := "self"; p_default := None |};
         {| p_name := "name"; p_default := Some (VStr "buildeasy") |};
         {| p_name := "level"; p_default := Some (VInt 1) |};
         {| p_name := "owner"; p_default := None |} ];
     cls_new := λ init_args, Ok init_args;
     cls_parent_hook := Some (λ _, None) |}.

(** ** The ancestor walk as a sequence of writes *)

(** The [setattr] calls of lines 96-100, in the order they are made. *)
Definition ancestor_writes (cls : py_class) : list (string * value) :=
  flat_map (λ base_cls, filter (λ item, is_public_callable item = true) (ty_dict base_cls))
           (filter (λ base_cls, ty_id base_cls ≠ cls_id cls) (cls_mro cls)).

(** The value of the last write to [name] in a sequence of writes. *)
Fixpoint last_write (name : string) (writes : list (string * value)) : option value :=
  match writes with
  | [] => None
  | (k, v) :: rest =>
      match last_write name rest with
      | Some w => Some w
      | None => if decide (k = name) then Some v else None
      end
  end.

Definition apply_writes (writes : list (string * value)) (d : gmap string value)
  : gmap string value :=
  foldl (λ d item, setattr item.1 item.2 d) d writes.

(** A transformation that reaches line 69: the parent hook returned, the
    module was found in [sys.modules] and is not cached yet. *)
Definition reaches_instantiation (cls : py_class) (kw g : gmap string value)
    (st : state) (name : string) (module : loc) : Prop :=
  super_init_subclass cls kw = None ∧
  g !! "__name__" = Some (VStr name) ∧
  sys_modules st !! name = Some module ∧
  _cache st !! name = None.

(** The state in which the body of [mixed.py] starts to run. *)
Definition mixed_loading : state :=
  {| sys_modules := {[ "mixed" := 0 ]}; _cache := ∅;
     heap := [module_object "mixed"]; stdout := [];
     files := ∅; instantiations := [] |}.


(** ** An example plugin directory *)

(** What the import system finds: [good] defines [MyModule], [bad] raises
    [ValueError] while it is imported, [stop] calls [sys.exit(1)]. *)
Definition example_finder (module_name : string) : option (list stmt) :=
  if decide (module_name = "good") then Some [StmtClass MyModule ∅]
  else if decide (module_name = "bad")
       then Some [StmtRaise (Exn ExcValueError "boom" None)]
  else if decide (module_name = "stop")
       then Some [StmtRaise (Exn ExcSystemExit "1" None)]
  else None.

(** [late.py] defines [MyModule] and then raises, so importing it fails after
    the class statement has run; [late_fixed] is the file once the failing
    statement is gone. *)
Definition late_failing (module_name : string) : option (list stmt) :=
  if decide (module_name = "late")
  then Some [StmtClass MyModule ∅; StmtRaise (Exn ExcValueError "late failure" None)]
  else None.


(** A directory that holds [tool.py], which defines [MyModule]. *)
Definition tool_finder (module_name : string) : option (list stmt) :=
  if decide (module_name = "tool") then Some [StmtClass MyModule ∅] else None.

(** One state extends another: nothing printed is lost and every registry
    entry is kept. *)
Definition extends (st st' : state) : Prop :=
  stdout st `prefix_of` stdout st' ∧ _cache st ⊆ _cache st'.

(** ** Dynamic method injection: [FileAsClass.add_dynamic_method] *)

(** [setattr(target, name, v)] for a value.  An object of the heap gets the
    attribute in its [__dict__].  [None], numbers, strings, tuples and lists
    have no attribute dictionary and refuse.  A function or a method object
    accepts the attribute and keeps it itself, outside the heap; the same is
    taken for an opaque object. *)
Definition setattr_value (target : value) (name : string) (v : value) (st : state)
  : result unit * state :=
  let refuse (type_name : string) :=
    (Raise (Exn ExcAttributeError
              ("'" +:+ type_name +:+ "' object has no attribute '" +:+ name +:+ "'")
              None), st) in
  match target with
  | VRef l =>
      match heap st !! l with
      | Some o =>
          (Ok (), set_heap <[l := {| obj_class := obj_class o;
                                     obj_dict := setattr name v (obj_dict o) |}]> st)
      | None => (Ok (), st)
      end
  | VNone => refuse "NoneType"
  | VInt _ => refuse "int"
  | VStr _ => refuse "str"
  | VTuple _ => refuse "tuple"
  | VList _ => refuse "list"
  | VFunction _ | VStaticMethod _ | VClassMethod _ | VOpaque _ => (Ok (), st)
  end.

(** The function [FileAsClass.add_dynamic_method(cls, method_name, method)],
    applied to a receiver as its first argument [cls]; [class_name], [normal]
    and [depth] describe the receiver as for [getattribute].  Line 119
    evaluates [cls.instance] through the receiver's [__getattribute__] and
    sets the attribute on what it finds.

    This is the body of the function, however the call is spelled.  On an
    instance the transformer built, the attribute [add_dynamic_method] is the
    plain function that lines 96-100 stored in the instance's own
    [__dict__]: it is not bound to the instance, so there the function is
    reached with the instance as [cls] only when the instance is passed
    explicitly, as in [FileAsClass.add_dynamic_method(inst, name, f)]. *)
Definition add_dynamic_method (class_name : string)
    (normal : nat → string → result value) (depth : nat)
    (method_name : string) (method : value) (st : state) : result unit * state :=
  match getattribute class_name normal depth "instance" 0 with
  | (Raise e, _) => (Raise e, st)
  | (Ok target, _) => setattr_value target method_name method st
  end.

(** [hasattr(self, name)] on an instance of a [FileAsClass] subclass: it goes
    through [__getattribute__], answers [False] on [AttributeError] and lets
    any other exception through. *)
Definition hasattr (class_name : string) (normal : nat → string → result value)
    (depth : nat) (name : string) (t : nat) : result bool * nat :=
  match getattribute class_name normal depth name t with
  | (Ok _, t) => (Ok true, t)
  | (Raise e, t) => if is_AttributeError e then (Ok false, t) else (Raise e, t)
  end.

(** ** Classes that do not define [__init__] *)

(** [inspect.signature(object.__init__)]: [(self, /, *args, **kwargs)]. *)
Definition object_init_signature : list parameter :=
  [ {| p_name := "self"; p_default := None |};
    {| p_name := "args"; p_default := None |};
    {| p_name := "kwargs"; p_default := None |} ].

(** [cls( **init_args)] for a class that defines neither [__new__] nor
    [__init__]: [object]'s refuse any argument. *)
Definition object_new (class_name : string) (init_args : gmap string value)
  : result (gmap string value) :=
  match size init_args with
  | 0 => Ok ∅
  | S _ => Raise (Exn ExcTypeError (class_name +:+ "() takes no arguments") None)
  end.

(** [class Bare(FileAsClass): pass] *)
Definition Bare : py_class :=
  {| cls_id := 6; cls_name := "Bare";
     cls_dict := [("__module__", VStr "bare")];
     cls_ancestors := [FileAsClass_type; object_type];
     cls_init_signature := object_init_signature;
     cls_new := object_new "Bare";
     cls_parent_hook := None |}.

(** ** The writes of lines 81-85 *)

Definition static_class_writes (cls : py_class) : list (string * value) :=
  filter (λ item, is_staticmethod item.2 || is_classmethod item.2 = true)
         (cls_dict cls).

(** [class Tools(FileAsClass)] with a static method, a class method, two
    plain methods and a constructor that sets [self.version] and
    [self.describe]. *)
Definition Tools : py_class :=
  {| cls_id := 7; cls_name := "Tools";
     cls_dict := [("__module__", VStr "tools");
                  ("__init__", VFunction "Tools.__init__");
                  ("run", VFunction "Tools.run");
                  ("_prepare", VFunction "Tools._prepare");
                  ("parse", VStaticMethod "Tools.parse");
                  ("create", VClassMethod "Tools.create")];
     cls_ancestors := [FileAsClass_type; Base_type; object_type];
     cls_init_signature := [ {| p_name := "self"; p_default := None |} ];
     cls_new := λ _, Ok {[ "version" := VInt 3;
                           "describe" := VStr "a field" ]};
     cls_parent_hook := None |}.

Definition tools_loading : state :=
  {| sys_modules := {[ "tools" := 0 ]}; _cache := ∅;
     heap := [{| obj_class := "module";
                 obj_dict := {[ "__name__" := VStr "tools";
                                "__file__" := VStr "tools.py" ]} |}];
     stdout := []; files := ∅; instantiations := [] |}.

(** * Properties *)

(** ** The transformer's paths *)

Lemma init_subclass_parent_hook_raises cls kw g st e :
  super_init_subclass cls kw = Some e →
  init_subclass cls kw g st = (Raise e, st).
Proof. intros H. unfold init_subclass. by rewrite H. Qed.

Lemma init_subclass_resolved cls kw g st name module :
  super_init_subclass cls kw = None →
  g !! "__name__" = Some (VStr name) →
  sys_modules st !! name = Some module →
  init_subclass cls kw g st =
    match _cache st !! name with
    | Some cached => (Ok cached, st)
    | None => transform_uncached cls kw name module st
    end.
Proof.
  intros Hhook Hname Hmod. unfold init_subclass.
  rewrite Hhook, Hname. simpl. by rewrite Hmod.
Qed.

(** The cached path of lines 50-51. *)
Lemma init_subclass_cached cls kw g st name module cached :
  super_init_subclass cls kw = None →
  g !! "__name__" = Some (VStr name) →
  sys_modules st !! name = Some module →
  _cache st !! name = Some cached →
  init_subclass cls kw g st = (Ok cached, st).
Proof.
  intros Hhook Hname Hmod Hc.
  rewrite (init_subclass_resolved _ _ _ _ _ _ Hhook Hname Hmod). by rewrite Hc.
Qed.

Lemma lookup_module_Ok module_name st name module :
  lookup_module module_name st = Ok (name, module) →
  module_name = VStr name ∧ sys_modules st !! name = Some module.
Proof.
  unfold lookup_module. intros H.
  destruct module_name; try discriminate.
  destruct (sys_modules st !! s) eqn:E; [|discriminate].
  by simplify_eq.
Qed.

(** Whatever the transformer returns, it first went through the guards of
    lines 39-51. *)
Lemma init_subclass_Ok cls kw g st inst st' :
  init_subclass cls kw g st = (Ok inst, st') →
  ∃ name module,
    super_init_subclass cls kw = None ∧
    g !! "__name__" = Some (VStr name) ∧
    sys_modules st !! name = Some module ∧
    ((_cache st !! name = Some inst ∧ st' = st) ∨
     (_cache st !! name = None ∧
      transform_uncached cls kw name module st = (Ok inst, st'))).
Proof.
  unfold init_subclass. intros H.
  destruct (super_init_subclass cls kw) eqn:Hhook; [discriminate|].
  destruct (g !! "__name__") as [module_name|] eqn:Hname; [|discriminate].
  change (default VNone (Some module_name)) with module_name in H.
  assert (∃ name module, lookup_module module_name st = Ok (name, module) ∧
            match _cache st !! name with
            | Some cached => (Ok cached, st)
            | None => transform_uncached cls kw name module st
            end = (Ok inst, st')) as (name & module & Hl & Hr).
  { destruct module_name; try discriminate;
      (destruct (lookup_module _ st) as [[n m]|] eqn:Hl; [|discriminate]);
      by exists n, m. }
  apply lookup_module_Ok in Hl as [-> Hmod].
  exists name, module. split_and!; [done..|].
  destruct (_cache st !! name) eqn:Hc; [left|right; done].
  by simplify_eq.
Qed.

Lemma transform_uncached_Ok cls kw name module st inst st' :
  transform_uncached cls kw name module st = (Ok inst, st') →
  ∃ d,
    cls_new cls (build_init_args (parameters cls) kw) = Ok d ∧
    inst = length (heap st) ∧
    sys_modules st' = <[name := inst]> (sys_modules st) ∧
    _cache st' = <[name := inst]> (_cache st) ∧
    heap st' = heap st ++
      [{| obj_class := cls_name cls;
          obj_dict := dress_instance cls (heap st) module inst d |}] ∧
    instantiations st' = instantiations st ++
      [{| inst_module := name; inst_class := cls_name cls;
          inst_args := build_init_args (parameters cls) kw;
          inst_result := Some inst |}] ∧
    stdout st' = stdout st ∧ files st' = files st.
Proof.
  unfold transform_uncached. intros H.
  destruct (cls_new cls _) as [d|e] eqn:Hnew.
  - exists d. simplify_eq. by split_and!.
  - by destruct (is_TypeError e).
Qed.

(** A failed transformation leaves the tables and the heap alone; at most the
    instantiation log grows. *)
Lemma init_subclass_Raise cls kw g st e st' :
  init_subclass cls kw g st = (Raise e, st') →
  sys_modules st' = sys_modules st ∧ _cache st' = _cache st ∧
  heap st' = heap st ∧ stdout st' = stdout st ∧ files st' = files st ∧
  created st' = created st.
Proof.
  unfold init_subclass. intros H.
  destruct (super_init_subclass cls kw); [by simplify_eq|].
  assert (∀ module_name,
            match lookup_module module_name st with
            | Ok (name, module) =>
                match _cache st !! name with
                | Some cached => (Ok cached, st)
                | None => transform_uncached cls kw name module st
                end
            | Raise e => (Raise e, st)
            end = (Raise e, st') →
            sys_modules st' = sys_modules st ∧ _cache st' = _cache st ∧
            heap st' = heap st ∧ stdout st' = stdout st ∧ files st' = files st ∧
            created st' = created st) as Haux.
  { intros module_name Hm.
    destruct (lookup_module module_name st) as [[name module]|]; [|by simplify_eq].
    destruct (_cache st !! name); [discriminate|].
    unfold transform_uncached in Hm.
    destruct (cls_new cls _); [discriminate|].
    assert (st' = log_instantiation
                    {| inst_module := name; inst_class := cls_name cls;
                       inst_args := build_init_args (parameters cls) kw;
                       inst_result := None |} st) as ->
      by (destruct (is_TypeError e0); by simplify_eq).
    split_and!; try done.
    unfold created. simpl. rewrite omap_app. simpl. by rewrite app_nil_r. }
  destruct (g !! "__name__") as [module_name|]; [|simpl in H; by simplify_eq].
  change (default VNone (Some module_name)) with module_name in H.
  destruct module_name; first [by simplify_eq | by eapply Haux].
Qed.

(** ** Idempotence *)

(** Idempotence where the guards pass.  Once the transformer has returned an
    instance for a module, the same call again returns the very instance that
    is cached (the same location) and leaves the whole state as it was:
    module table, registry, heap (so the cached instance too) and
    instantiation log.  The same holds for any other class statement run in
    that module whose parent hook returns. *)
Lemma transformer_idempotent cls kw g st inst st1 :
  init_subclass cls kw g st = (Ok inst, st1) →
  init_subclass cls kw g st1 = (Ok inst, st1) ∧
  new_instantiations st1 (init_subclass cls kw g st1).2 = [] ∧
  ∀ cls' kw', super_init_subclass cls' kw' = None →
              init_subclass cls' kw' g st1 = (Ok inst, st1).
Proof.
  intros H.
  destruct (init_subclass_Ok _ _ _ _ _ _ H)
    as (name & module & Hhook & Hname & Hmod & [[Hc ->]|[Hc Ht]]).
  - assert (∀ cls' kw', super_init_subclass cls' kw' = None →
                        init_subclass cls' kw' g st = (Ok inst, st)) as Hany
      by (intros; by eapply init_subclass_cached).
    split_and!; [by apply Hany| |done].
    rewrite (Hany _ _ Hhook). unfold new_instantiations. simpl.
    by rewrite drop_all.
  - destruct (transform_uncached_Ok _ _ _ _ _ _ _ Ht)
      as (d & _ & _ & Hsm & Hca & _).
    assert (∀ cls' kw', super_init_subclass cls' kw' = None →
                        init_subclass cls' kw' g st1 = (Ok inst, st1)) as Hany.
    { intros. eapply init_subclass_cached; [done..| |].
      - rewrite Hsm. apply lookup_insert_eq.
      - rewrite Hca. apply lookup_insert_eq. }
    split_and!; [by apply Hany| |done].
    rewrite (Hany _ _ Hhook). unfold new_instantiations. simpl.
    by rewrite drop_all.
Qed.

Example my_module_transformed_again :
  let st1 := (init_subclass MyModule ∅ (module_globals "my_module") my_module_loading).2 in
  init_subclass MyModule ∅ (module_globals "my_module") st1 = (Ok 1, st1).
Proof. by vm_compute. Qed.

(** C1 fails on the code.  For a module name that is in the registry, the
    transformer never changes the state, but it returns the cached instance
    only when two earlier steps let it reach the registry: the parent hook of
    line 39, which raises as soon as the class statement carries a keyword
    argument and no base class takes it, and the read of the module table at
    line 47, which raises [KeyError] when the table has no entry under the
    name.  Both come before the registry is consulted at line 50. *)
Theorem transformation_of_a_cached_identifier cls kw g st name inst :
  g !! "__name__" = Some (VStr name) →
  _cache st !! name = Some inst →
  init_subclass cls kw g st =
    (match super_init_subclass cls kw with
     | Some e => Raise e
     | None =>
         match sys_modules st !! name with
         | Some _ => Ok inst
         | None => Raise (Exn ExcKeyError ("'" +:+ name +:+ "'") None)
         end
     end, st).
Proof.
  intros Hname Hc. unfold init_subclass.
  destruct (super_init_subclass cls kw); [done|].
  rewrite Hname. simpl.
  destruct (sys_modules st !! name); [|done]. by rewrite Hc.
Qed.

(** [my_module] is transformed, and a second class statement in it carries a
    keyword argument: the cached instance is not returned. *)
Lemma transformation_of_a_cached_identifier_witness :
  let st := (init_subclass MyModule ∅ (module_globals "my_module") my_module_loading).2 in
  init_subclass Bare {[ "name" := VStr "x" ]} (module_globals "my_module") st =
    (Raise (Exn ExcTypeError
              "Bare.__init_subclass__() takes no keyword arguments" None), st).
Proof.
  intros st.
  refine (transformation_of_a_cached_identifier Bare {[ "name" := VStr "x" ]}
            (module_globals "my_module") st "my_module" 1 _ _); reflexivity.
Defined.

(** The second way: the registry still holds the instance of [late] after its
    import has failed, the module table does not, and a class statement run
    under that name gets [KeyError] instead of the instance. *)
Example cached_identifier_without_module :
  let st := (import_module late_failing "late" initial_state).2 in
  _cache st !! "late" = Some 1 ∧ sys_modules st !! "late" = None ∧
  init_subclass MyModule ∅ (module_globals "late") st =
    (Raise (Exn ExcKeyError "'late'" None), st).
Proof. by vm_compute. Qed.

(** ** Unresolved module name *)

(** When the module name cannot be resolved the transformation is aborted
    with an exception and the state is exactly what it was.  The exception is
    the [RuntimeError] of line 46 whenever the parent hook of line 39 has
    returned. *)
Lemma unresolved_module_name_aborts cls kw g st :
  unresolved g →
  (∃ e, init_subclass cls kw g st = (Raise e, st)) ∧
  (super_init_subclass cls kw = None →
   init_subclass cls kw g st =
     (Raise (Exn ExcRuntimeError
               "Cannot determine module name from caller's frame." None), st)).
Proof.
  unfold unresolved. intros Hg.
  assert (super_init_subclass cls kw = None →
          init_subclass cls kw g st =
            (Raise (Exn ExcRuntimeError
                      "Cannot determine module name from caller's frame." None), st))
    as Hok.
  { intros Hhook. unfold init_subclass. by rewrite Hhook, Hg. }
  split; [|done].
  destruct (super_init_subclass cls kw) as [e|] eqn:Hhook.
  - exists e. by apply init_subclass_parent_hook_raises.
  - eexists. by apply Hok.
Qed.

Example unresolved_name_of_MyModule :
  init_subclass MyModule ∅ ∅ my_module_loading =
    (Raise (Exn ExcRuntimeError
              "Cannot determine module name from caller's frame." None),
     my_module_loading).
Proof. reflexivity. Qed.

(** [object.__init_subclass__] takes no keyword. *)
Lemma object_init_subclass_keywords cls (kw : gmap string value) :
  object_init_subclass cls kw =
    if decide (kw = ∅) then None
    else Some (Exn ExcTypeError
                 (cls_name cls +:+ ".__init_subclass__() takes no keyword arguments")
                 None).
Proof.
  unfold object_init_subclass. case_decide as Hkw.
  - by rewrite Hkw, map_size_empty.
  - destruct (size kw) eqn:Hsize; [|done].
    by apply map_size_empty_iff in Hsize.
Qed.

(** C3 fails on the code.  For a class whose bases define no
    [__init_subclass__] of their own, line 39 hands the keyword arguments of
    the class statement to [object.__init_subclass__], which refuses them,
    before the module name is looked at.  So with an unresolved module name
    the [RuntimeError] of line 46 is raised only when the class statement
    carries no keyword argument; with one, a [TypeError] surfaces instead.
    The state is unchanged either way. *)
Theorem unresolved_with_keywords_raises_TypeError cls kw g st :
  unresolved g →
  cls_parent_hook cls = None →
  init_subclass cls kw g st =
    (Raise (if decide (kw = ∅)
            then Exn ExcRuntimeError
                   "Cannot determine module name from caller's frame." None
            else Exn ExcTypeError
                   (cls_name cls +:+ ".__init_subclass__() takes no keyword arguments")
                   None), st).
Proof.
  unfold unresolved. intros Hg Hhook.
  unfold init_subclass, super_init_subclass.
  rewrite Hhook, object_init_subclass_keywords.
  case_decide; [|done]. by rewrite Hg.
Qed.

Lemma unresolved_with_keywords_raises_TypeError_witness :
  init_subclass MyModule {[ "name" := VStr "x" ]} ∅ my_module_loading =
    (Raise (Exn ExcTypeError
              "MyModule.__init_subclass__() takes no keyword arguments" None),
     my_module_loading).
Proof.
  refine (unresolved_with_keywords_raises_TypeError MyModule {[ "name" := VStr "x" ]}
            ∅ my_module_loading _ _); reflexivity.
Defined.

(** ** Failing constructors *)

(** C4, amended.  When the constructor raises a [TypeError] the transformer
    raises a [TransformationError] whose message names the class and whose
    cause is that [TypeError]; any other exception of the constructor leaves
    the transformer as it is.  Either way the registry, the module table and
    the heap, hence every instance cached before, are unchanged. *)
Theorem constructor_failure cls kw g st name module e :
  reaches_instantiation cls kw g st name module →
  cls_new cls (build_init_args (parameters cls) kw) = Raise e →
  ∃ st',
    init_subclass cls kw g st =
      (Raise (if is_TypeError e
              then Exn ExcTransformationError
                     ("Error instantiating " +:+ cls_name cls +:+ ": " +:+ exn_str e)
                     (Some e)
              else e), st') ∧
    _cache st' = _cache st ∧ sys_modules st' = sys_modules st ∧
    heap st' = heap st.
Proof.
  intros (Hhook & Hname & Hmod & Hc) Hnew.
  rewrite (init_subclass_resolved _ _ _ _ _ _ Hhook Hname Hmod), Hc.
  unfold transform_uncached. rewrite Hnew.
  eexists. split; [by destruct (is_TypeError e)|done].
Qed.

Lemma constructor_failure_witness :
  ∃ st',
    init_subclass (with_constructor MyModule
                     (λ _, Raise (Exn ExcTypeError "missing argument" None)))
      ∅ (module_globals "my_module") my_module_loading =
      (Raise (Exn ExcTransformationError
                "Error instantiating MyModule: missing argument"
                (Some (Exn ExcTypeError "missing argument" None))), st') ∧
    _cache st' = ∅ ∧ sys_modules st' = {[ "my_module" := 0 ]} ∧
    heap st' = [module_object "my_module"].
Proof.
  refine (constructor_failure
            (with_constructor MyModule
               (λ _, Raise (Exn ExcTypeError "missing argument" None)))
            ∅ (module_globals "my_module") my_module_loading "my_module" 0
            (Exn ExcTypeError "missing argument" None) _ _).
  - repeat split.
  - reflexivity.
Defined.

(** C4 as stated fails: a constructor that raises [ValueError] makes the
    transformer raise that [ValueError], not a [TransformationError]. *)
Lemma constructor_ValueError_is_not_wrapped :
  cls_new Misconfigured (build_init_args (parameters Misconfigured) ∅) =
    Raise (Exn ExcValueError "bad configuration" None) ∧
  (init_subclass Misconfigured ∅ (module_globals "my_module") my_module_loading).1 =
    Raise (Exn ExcValueError "bad configuration" None).
Proof. split; reflexivity. Qed.

(** ** Construction arguments *)

Lemma foldl_init_args_other params kw (acc : gmap string value) k :
  k ∉ p_name <$> params →
  foldl (λ init_args param, <[p_name param := init_arg kw param]> init_args)
        acc params !! k = acc !! k.
Proof.
  revert acc. induction params as [|q params IH]; intros acc Hk; [done|].
  simpl. rewrite fmap_cons, not_elem_of_cons in Hk. destruct Hk as [Hne Hk].
  rewrite IH by done. by rewrite lookup_insert_ne.
Qed.

Lemma build_init_args_lookup params kw p :
  NoDup (p_name <$> params) → p ∈ params →
  build_init_args params kw !! p_name p = Some (init_arg kw p).
Proof.
  unfold build_init_args. generalize (∅ : gmap string value).
  induction params as [|q params IH]; intros acc Hnd Hp.
  - by apply elem_of_nil in Hp.
  - rewrite fmap_cons, NoDup_cons in Hnd. destruct Hnd as [Hq Hnd].
    simpl. apply elem_of_cons in Hp as [->|Hp].
    + rewrite foldl_init_args_other by done. apply lookup_insert_eq.
    + by apply IH.
Qed.


(** C5 fails on the code where it promises the override.  A keyword argument
    of the class statement is handed to the parent hook at line 39 before
    lines 59-61 can use it.  For a class whose bases define no
    [__init_subclass__] of their own the hook is [object]'s, which takes no
    keyword: the transformation raises [TypeError], the constructor is not
    called and the state is what it was, whatever parameter the keyword
    names. *)
Theorem keyword_override_is_refused cls kw g st p override :
  cls_parent_hook cls = None →
  p ∈ parameters cls →
  kw !! p_name p = Some override →
  init_subclass cls kw g st =
    (Raise (Exn ExcTypeError
              (cls_name cls +:+ ".__init_subclass__() takes no keyword arguments")
              None), st) ∧
  new_instantiations st (init_subclass cls kw g st).2 = [].
Proof.
  intros Hhook _ Hkw.
  assert (init_subclass cls kw g st =
            (Raise (Exn ExcTypeError
                      (cls_name cls +:+
                         ".__init_subclass__() takes no keyword arguments")
                      None), st)) as H.
  { apply init_subclass_parent_hook_raises.
    unfold super_init_subclass. rewrite Hhook, object_init_subclass_keywords.
    rewrite decide_False; [done|]. intros ->. by rewrite lookup_empty in Hkw. }
  split; [done|]. rewrite H. unfold new_instantiations. simpl. by rewrite drop_all.
Qed.

(** [class MyModule(FileAsClass, name="x")] *)
Lemma keyword_override_is_refused_witness :
  init_subclass MyModule {[ "name" := VStr "x" ]} (module_globals "my_module")
    my_module_loading =
    (Raise (Exn ExcTypeError
              "MyModule.__init_subclass__() takes no keyword arguments" None),
     my_module_loading).
Proof.
  refine (proj1 (keyword_override_is_refused MyModule {[ "name" := VStr "x" ]}
                   (module_globals "my_module") my_module_loading
                   {| p_name := "name"; p_default := Some (VStr "buildeasy") |}
                   (VStr "x") _ _ _)).
  - reflexivity.
  - vm_compute. constructor.
  - reflexivity.
Defined.

(** Without a keyword the fallback is what the constructor gets: [MyModule]
    is built with the declared default of [name]. *)
Example MyModule_default_argument :
  ∃ o, heap (init_subclass MyModule ∅ (module_globals "my_module")
               my_module_loading).2 !! 1 = Some o ∧
       obj_dict o !! "name" = Some (VStr "buildeasy").
Proof. eexists. split; [reflexivity|]. by vm_compute. Qed.

(** The override is used where a base class placed after [FileAsClass] takes
    the keywords.  [Mixed] stores the arguments of its constructor; defined
    with [name="x"] it ends with the override, the declared default of
    [level], and [None] for [owner], which has no default. *)
Example Mixed_arguments :
  ∃ o, heap (init_subclass Mixed {[ "name" := VStr "x" ]}
               (module_globals "mixed") mixed_loading).2 !! 1 = Some o ∧
       obj_dict o !! "name" = Some (VStr "x") ∧
       obj_dict o !! "level" = Some (VInt 1) ∧
       obj_dict o !! "owner" = Some VNone.
Proof. eexists. split; [reflexivity|]. by vm_compute. Qed.

(** ** The ancestor walk *)

Lemma last_write_app name l1 l2 :
  last_write name (l1 ++ l2) =
    match last_write name l2 with
    | Some w => Some w
    | None => last_write name l1
    end.
Proof.
  induction l1 as [|[k v] l1 IH]; simpl.
  - by destruct (last_write name l2).
  - rewrite IH. by destruct (last_write name l2).
Qed.

Lemma last_write_None name l :
  (∀ v, (name, v) ∉ l) → last_write name l = None.
Proof.
  induction l as [|[k v] l IH]; intros Hn; [done|]. simpl.
  rewrite IH by (intros w Hw; apply (Hn w); by right).
  case_decide; [|done]. subst. destruct (Hn v). by left.
Qed.

Lemma last_write_NoDup name v l :
  NoDup l.*1 → (name, v) ∈ l → last_write name l = Some v.
Proof.
  induction l as [|[k w] l IH]; intros Hnd Hin; [by apply elem_of_nil in Hin|].
  rewrite fmap_cons, NoDup_cons in Hnd. destruct Hnd as [Hk Hnd]. simpl in *.
  apply elem_of_cons in Hin as [Heq|Hin].
  - simplify_eq. rewrite last_write_None; [by rewrite decide_True|].
    intros w' Hw'. apply Hk. apply list_elem_of_fmap. by exists (k, w').
  - by rewrite (IH Hnd Hin).
Qed.

Lemma apply_writes_lookup writes d name :
  apply_writes writes d !! name =
    match last_write name writes with
    | Some w => Some w
    | None => d !! name
    end.
Proof.
  unfold apply_writes. revert d.
  induction writes as [|[k v] writes IH]; intros d; [done|].
  simpl. rewrite IH. destruct (last_write name writes); [done|].
  unfold setattr. case_decide.
  - subst. apply lookup_insert_eq.
  - by apply lookup_insert_ne.
Qed.

Lemma copy_public_callables_writes items d :
  copy_public_callables items d =
    apply_writes (filter (λ item, is_public_callable item = true) items) d.
Proof.
  unfold copy_public_callables, apply_writes. revert d.
  induction items as [|item items IH]; intros d; [done|].
  simpl. rewrite IH. rewrite filter_cons.
  destruct (is_public_callable item) eqn:E.
  - by rewrite decide_True.
  - by rewrite decide_False by (by intros ?).
Qed.

Lemma apply_writes_app l1 l2 d :
  apply_writes (l1 ++ l2) d = apply_writes l2 (apply_writes l1 d).
Proof. unfold apply_writes. by rewrite foldl_app. Qed.

(** Lines 96-100 do exactly the writes of [ancestor_writes], in order. *)
Lemma merge_ancestors_writes cls d :
  merge_ancestors cls d = apply_writes (ancestor_writes cls) d.
Proof.
  unfold merge_ancestors, ancestor_writes.
  generalize (cls_mro cls). intros mro. revert d.
  induction mro as [|base_cls mro IH]; intros d; [done|].
  simpl. rewrite IH. rewrite filter_cons. case_decide.
  - simpl. by rewrite apply_writes_app, copy_public_callables_writes.
  - done.
Qed.

(** What the walk leaves under [name] when [B] is the last ancestor that
    defines it as a public callable. *)
Lemma ancestor_writes_last cls name pre B post vB :
  cls_ancestors cls = pre ++ B :: post →
  ty_id B ≠ cls_id cls →
  NoDup (ty_dict B).*1 →
  (name, vB) ∈ ty_dict B →
  is_public_callable (name, vB) = true →
  (∀ C v, C ∈ post → (name, v) ∈ ty_dict C → is_public_callable (name, v) = false) →
  last_write name (ancestor_writes cls) = Some vB.
Proof.
  intros Hanc HB Hnd Hin Hpub Hpost.
  unfold ancestor_writes, cls_mro. rewrite Hanc.
  change (cls_self cls :: pre ++ B :: post)
    with ((cls_self cls :: pre) ++ B :: post).
  rewrite filter_app, (filter_cons _ B), decide_True by done.
  rewrite flat_map_app. simpl.
  rewrite !last_write_app.
  rewrite last_write_None.
  - rewrite (last_write_NoDup name vB); [done| |].
    + eapply sublist_NoDup; [exact Hnd|].
      apply fmap_sublist, sublist_filter.
    + apply list_elem_of_filter. by split.
  - intros v Hv. apply list_elem_of_In, in_flat_map in Hv as (C & HC & Hv).
    apply list_elem_of_In, list_elem_of_filter in HC as [_ HC].
    apply list_elem_of_In, list_elem_of_filter in Hv as [Hv1 Hv2].
    rewrite (Hpost C v HC Hv2) in Hv1. discriminate.
Qed.

(** The instance a transformation builds is stored at the returned location,
    dressed by lines 74-100. *)
Lemma init_subclass_instance cls kw g st inst st' :
  init_subclass cls kw g st = (Ok inst, st') →
  new_instantiations st st' ≠ [] →
  ∃ module d,
    heap st' !! inst =
      Some {| obj_class := cls_name cls;
              obj_dict := dress_instance cls (heap st) module inst d |}.
Proof.
  intros H Hnew.
  destruct (init_subclass_Ok _ _ _ _ _ _ H)
    as (name & module & _ & _ & _ & [[_ ->]|[_ Ht]]).
  - destruct Hnew. unfold new_instantiations. by rewrite drop_all.
  - destruct (transform_uncached_Ok _ _ _ _ _ _ _ Ht)
      as (d & _ & -> & _ & _ & Hheap & _).
    exists module, d. rewrite Hheap.
    by rewrite lookup_app_r, Nat.sub_diag.
Qed.

(** C6.  Let [A] and [B] be ancestors of the transformed class, [A] before
    [B] in the MRO, both defining the public callable [m], with no ancestor
    after [B] defining it.  After the transformation the instance's [m] is
    the last write of the ancestor walk, which is [B]'s version. *)
Theorem ancestor_merge_last_write_wins
    cls kw g st inst st' m pre A mid B post vA vB :
  init_subclass cls kw g st = (Ok inst, st') →
  new_instantiations st st' ≠ [] →
  cls_ancestors cls = pre ++ A :: mid ++ B :: post →
  ty_id A ≠ cls_id cls → ty_id B ≠ cls_id cls →
  (m, vA) ∈ ty_dict A → is_public_callable (m, vA) = true →
  NoDup (ty_dict B).*1 →
  (m, vB) ∈ ty_dict B → is_public_callable (m, vB) = true →
  (∀ C v, C ∈ post → (m, v) ∈ ty_dict C → is_public_callable (m, v) = false) →
  ∃ o, heap st' !! inst = Some o ∧
       obj_dict o !! m = last_write m (ancestor_writes cls) ∧
       obj_dict o !! m = Some vB.
Proof.
  intros H Hnew Hanc _ HB _ _ Hnd HinB HpubB Hpost.
  destruct (init_subclass_instance _ _ _ _ _ _ H Hnew) as (module & d & Ho).
  eexists. split; [exact Ho|]. simpl.
  assert (last_write m (ancestor_writes cls) = Some vB) as Hlast.
  { eapply (ancestor_writes_last cls m (pre ++ A :: mid) B post); try done.
    by rewrite <- app_assoc. }
  unfold dress_instance.
  rewrite merge_ancestors_writes, apply_writes_lookup, Hlast. done.
Qed.

Lemma ancestor_merge_last_write_wins_witness :
  ∃ o, heap (init_subclass Mixed ∅ (module_globals "mixed") mixed_loading).2 !! 1
         = Some o ∧
       obj_dict o !! "describe" = last_write "describe" (ancestor_writes Mixed) ∧
       obj_dict o !! "describe" = Some (VFunction "Base.describe").
Proof.
  refine (ancestor_merge_last_write_wins Mixed ∅ (module_globals "mixed")
            mixed_loading 1 _ "describe"
            [FileAsClass_type] Mixin_type [] Base_type [object_type]
            (VFunction "Mixin.describe") (VFunction "Base.describe")
            _ _ _ _ _ _ _ _ _ _ _).
  - vm_compute. reflexivity.
  - by vm_compute.
  - reflexivity.
  - by vm_compute.
  - by vm_compute.
  - vm_compute. do 2 apply list_elem_of_further. apply list_elem_of_here.
  - reflexivity.
  - apply (bool_decide_unpack _). by vm_compute.
  - vm_compute. apply list_elem_of_here.
  - reflexivity.
  - intros C v ->%list_elem_of_singleton Hv. simpl in Hv.
    repeat (apply elem_of_cons in Hv as [Hv|Hv]; [by inversion Hv|]).
    by apply elem_of_nil in Hv.
Defined.

(** With a single definer the walk copies that version: [Mixed] gets
    [Mixin]'s [greet] and [FileAsClass]'s [add_dynamic_method]. *)
Example Mixed_inherited :
  ∃ o, heap (init_subclass Mixed ∅ (module_globals "mixed") mixed_loading).2 !! 1
         = Some o ∧
       obj_dict o !! "greet" = Some (VFunction "Mixin.greet") ∧
       obj_dict o !! "add_dynamic_method" =
         Some (VFunction "FileAsClass.add_dynamic_method") ∧
       obj_dict o !! "_helper" = None.
Proof. eexists. split; [reflexivity|]. by vm_compute. Qed.

(** ** Facts about strings *)

Lemma substring_full s : String.substring 0 (String.length s) s = s.
Proof. induction s as [|c s IH]; simpl; [done|by rewrite IH]. Qed.

Lemma substring_split s n :
  n ≤ String.length s →
  String.substring 0 n s +:+ String.substring n (String.length s - n) s = s.
Proof.
  revert n. induction s as [|c s IH]; intros n Hn; simpl in *.
  - by destruct n.
  - destruct n as [|n]; simpl.
    + by rewrite substring_full.
    + transitivity
        (String c (String.substring 0 n s +:+
                     String.substring n (String.length s - n) s));
        [reflexivity|]. f_equal. apply IH. lia.
Qed.

Lemma length_substring_0 s n :
  String.length (String.substring 0 n s) = n `min` String.length s.
Proof.
  revert n. induction s as [|c s IH]; intros [|n]; simpl; try done.
  by rewrite IH.
Qed.

Lemma length_append s1 s2 :
  String.length (s1 +:+ s2) = String.length s1 + String.length s2.
Proof. induction s1 as [|c s1 IH]; simpl; [done|by rewrite IH]. Qed.

Lemma substring_append_l s1 s2 :
  String.substring 0 (String.length s1) (s1 +:+ s2) = s1.
Proof.
  induction s1 as [|c s1 IH]; simpl; [by destruct s2|].
  change (String c s1 +:+ s2) with (String c (s1 +:+ s2)).
  simpl. by rewrite IH.
Qed.

Lemma substring_append_r s1 s2 :
  String.substring (String.length s1) (String.length s2) (s1 +:+ s2) = s2.
Proof.
  induction s1 as [|c s1 IH]; simpl; [apply substring_full|].
  change (String c s1 +:+ s2) with (String c (s1 +:+ s2)). by simpl.
Qed.

Lemma endswith_spec s suf :
  endswith s suf = true →
  String.length suf ≤ String.length s ∧
  String.substring (String.length s - String.length suf) (String.length suf) s = suf.
Proof.
  unfold endswith. intros [Hlen Heq]%andb_true_iff.
  apply Nat.leb_le in Hlen. by apply String.eqb_eq in Heq.
Qed.

Lemma endswith_append s suf : endswith (s +:+ suf) suf = true.
Proof.
  unfold endswith. rewrite length_append. apply andb_true_iff. split.
  - apply Nat.leb_le. lia.
  - replace (String.length s + String.length suf - String.length suf)
      with (String.length s) by lia.
    rewrite substring_append_r. apply String.eqb_refl.
Qed.

(** For an extension of three characters, such as the default [".py"],
    line 202 gives the name without its extension. *)
Lemma slice_to_minus3_append module_name extension :
  String.length extension = 3 →
  slice_to_minus3 (module_name +:+ extension) = module_name.
Proof.
  intros H3. unfold slice_to_minus3. rewrite length_append, H3.
  replace (String.length module_name + 3 - 3) with (String.length module_name)
    by lia.
  apply substring_append_l.
Qed.

(** ** Names with dots *)

Lemma before_last_dot_shorter name parent :
  before_last_dot name = Some parent → String.length parent < String.length name.
Proof.
  revert parent. induction name as [|c name IH]; intros parent H; simpl in *;
    [done|].
  destruct (before_last_dot name) as [p|].
  - simplify_eq. simpl. specialize (IH p eq_refl). lia.
  - case_decide; simplify_eq. simpl. lia.
Qed.

Lemma parent_of_shorter name :
  parent_of name ≠ "" → String.length (parent_of name) < String.length name.
Proof.
  unfold parent_of. destruct (before_last_dot name) as [p|] eqn:H; simpl; [|done].
  intros _. by apply before_last_dot_shorter.
Qed.

Lemma before_last_dot_None name :
  before_first_dot name = None → before_last_dot name = None.
Proof.
  induction name as [|c name IH]; simpl; [done|].
  case_decide; [done|].
  destruct (before_first_dot name); [done|]. intros _.
  by rewrite IH.
Qed.

(** The length of the name is fuel enough: more changes nothing. *)
Lemma find_and_load_fuel finder fuel1 fuel2 name st :
  String.length name ≤ fuel1 → String.length name ≤ fuel2 →
  find_and_load finder fuel1 name st = find_and_load finder fuel2 name st.
Proof.
  revert fuel2 name st.
  induction fuel1 as [|fuel1 IH]; intros [|fuel2] name st H1 H2; [done| | |].
  - destruct name; [|simpl in H1; lia]. simpl.
    by destruct (sys_modules st !! "").
  - destruct name; [|simpl in H2; lia]. simpl.
    by destruct (sys_modules st !! "").
  - simpl. destruct (sys_modules st !! name); [done|].
    case_decide as Hparent; [done|].
    destruct (sys_modules st !! parent_of name); [done|].
    pose proof (parent_of_shorter name Hparent).
    rewrite (IH fuel2) by lia. done.
Qed.

(** For a name without a dot, [__import__] is the top-level import. *)
Lemma import_top_level finder name st :
  before_first_dot name = None →
  __import__ finder name st = import_module finder name st.
Proof.
  intros Hdot. unfold __import__, import_module.
  case_decide as Hname; [done|]. rewrite Hdot.
  assert (find_and_load finder (String.length name) name st =
            match sys_modules st !! name with
            | Some module => (Ok module, st)
            | None => load_module finder name st
            end) as ->.
  { destruct name as [|c name]; [done|]. simpl String.length.
    cbn [find_and_load]. destruct (sys_modules st !! String c name); [done|].
    unfold parent_of. by rewrite (before_last_dot_None _ Hdot). }
  destruct (sys_modules st !! name); [done|].
  by destruct (load_module finder name st) as [[module|e] st'].
Qed.

(** ** What imports, scans and runs preserve *)

Lemma find_in_package_state name parent st :
  (find_in_package name parent st).2 = st.
Proof.
  unfold find_in_package.
  destruct (sys_modules st !! name); [done|].
  destruct (sys_modules st !! parent); [|done].
  destruct (object_getattr st _ "__path__") as [v|e]; [done|].
  by destruct (is_AttributeError e).
Qed.

(** A relation between the state before and the state after that every step
    of the model respects is respected by imports, scans and runs. *)
Section preserved.
Variable R : state → state → Prop.
Hypothesis R_refl : ∀ st, R st st.
Hypothesis R_trans : ∀ st1 st2 st3, R st1 st2 → R st2 st3 → R st1 st3.
Hypothesis R_init_subclass : ∀ cls kw g st, R st (init_subclass cls kw g st).2.
Hypothesis R_sys_modules : ∀ f st, R st (set_sys_modules f st).
Hypothesis R_heap : ∀ objects st, R st (set_heap (λ h, h ++ objects) st).
Hypothesis R_print : ∀ line st, R st (print line st).
Hypothesis R_files : ∀ f st, R st (set_files f st).

Lemma exec_body_preserves name body st : R st (exec_body name body st).2.
Proof.
  revert st. induction body as [|[cls kw|e] body IH]; intros st; simpl;
    [done| |done].
  pose proof (R_init_subclass cls kw (module_globals name) st) as H.
  destruct (init_subclass cls kw (module_globals name) st) as [[inst|e] st'];
    [|done].
  eapply R_trans; [exact H|apply IH].
Qed.

Lemma load_module_preserves finder name st :
  R st (load_module finder name st).2.
Proof.
  unfold load_module. destruct (finder name) as [body|]; [|done].
  match goal with
  | |- context [exec_body name body ?s] =>
      pose proof (exec_body_preserves name body s) as Hb;
      destruct (exec_body name body s) as [[e|] st']
  end; simpl in *;
    (eapply R_trans; [apply R_heap|]);
    (eapply R_trans; [apply R_sys_modules|]); [|done].
  eapply R_trans; [exact Hb|apply R_sys_modules].
Qed.

Lemma import_module_preserves finder name st :
  R st (import_module finder name st).2.
Proof.
  unfold import_module. case_decide; [done|].
  destruct (sys_modules st !! name); [done|]. apply load_module_preserves.
Qed.

Lemma find_and_load_preserves finder fuel name st :
  R st (find_and_load finder fuel name st).2.
Proof.
  revert name st. induction fuel as [|fuel IH]; intros name st; simpl.
  - destruct (sys_modules st !! name); [done|apply load_module_preserves].
  - destruct (sys_modules st !! name); [done|].
    case_decide; [apply load_module_preserves|].
    destruct (sys_modules st !! parent_of name).
    + by rewrite find_in_package_state.
    + pose proof (IH (parent_of name) st) as Hp.
      destruct (find_and_load finder fuel (parent_of name) st)
        as [[module|e] st']; simpl in *; [|done].
      by rewrite find_in_package_state.
Qed.

Lemma import_preserves finder name st : R st (__import__ finder name st).2.
Proof.
  unfold __import__. case_decide; [done|].
  pose proof (find_and_load_preserves finder (String.length name) name st) as Hf.
  destruct (find_and_load finder (String.length name) name st)
    as [[module|e] st']; simpl in *; [|done].
  destruct (before_first_dot name); [|done].
  eapply R_trans; [exact Hf|apply import_module_preserves].
Qed.

Lemma load_plugin_preserves finder name st :
  R st (load_plugin finder name st).2.
Proof.
  unfold load_plugin.
  pose proof (import_preserves finder name st) as Hi.
  by destruct (__import__ finder name st) as [[module|e] st'].
Qed.

Lemma scan_entries_preserves finder entries extension st :
  R st (scan_entries finder entries extension st).2.
Proof.
  revert st. induction entries as [|filename rest IH]; intros st; simpl;
    [done|].
  destruct (endswith filename extension); [|apply IH].
  pose proof (load_plugin_preserves finder (slice_to_minus3 filename) st) as Hl.
  destruct (load_plugin finder (slice_to_minus3 filename) st) as [[e|] st'];
    simpl in Hl.
  - destruct (is_Exception e); [|done].
    eapply R_trans; [exact Hl|].
    eapply R_trans; [apply R_print|apply IH].
  - eapply R_trans; [exact Hl|apply IH].
Qed.

Lemma run_op_preserves st o : R st (run_op st o).
Proof.
  destruct o as [cls kw g|finder name|finder [entries|] extension
                 |pickle cls filename|pickle cls filename]; simpl.
  - apply R_init_subclass.
  - apply import_preserves.
  - apply scan_entries_preserves.
  - done.
  - unfold save_to_file. destruct (class_getattr cls "instance"); simpl;
      [|apply R_files].
    match goal with
    | |- context [pickle_dump pickle ?s ?v] =>
        destruct (pickle_dump pickle s v) as [bytes [e|]]
    end; simpl; (eapply R_trans; [apply R_files|apply R_files]).
  - unfold load_from_file. destruct (files st !! filename); [|done].
    case_decide; [done|].
    destruct (pickle_load pickle st f) as [[objects v]|e]; [|done].
    apply R_heap.
Qed.

Lemma run_preserves ops st : R st (run ops st).
Proof.
  unfold run. revert st. induction ops as [|o ops IH]; intros st; simpl;
    [done|].
  eapply R_trans; [apply run_op_preserves|apply IH].
Qed.
End preserved.

(** ** The singleton invariant *)






(** Nothing printed is lost and no registry entry is dropped or changed. *)

Lemma extends_refl st : extends st st.
Proof. by split. Qed.

Lemma extends_trans st1 st2 st3 : extends st1 st2 → extends st2 st3 → extends st1 st3.
Proof. intros [? ?] [? ?]. split; by etrans. Qed.

Lemma extends_same st st' :
  stdout st' = stdout st → _cache st' = _cache st → extends st st'.
Proof. intros Ho Hc. unfold extends. by rewrite Ho, Hc. Qed.

Lemma init_subclass_extends cls kw g st : extends st (init_subclass cls kw g st).2.
Proof.
  destruct (init_subclass cls kw g st) as [[inst|e] st'] eqn:H; simpl.
  - destruct (init_subclass_Ok _ _ _ _ _ _ H)
      as (name & module & _ & _ & _ & [[_ ->]|[Hc Ht]]); [apply extends_refl|].
    destruct (transform_uncached_Ok _ _ _ _ _ _ _ Ht)
      as (d & _ & _ & _ & Hca & _ & _ & Hout & _).
    split; [by rewrite Hout|]. rewrite Hca. by apply insert_subseteq.
  - destruct (init_subclass_Raise _ _ _ _ _ _ H) as (_ & Hca & _ & Hout & _).
    by apply extends_same.
Qed.

Lemma print_extends line st : extends st (print line st).
Proof. split; [by apply prefix_app_r|done]. Qed.

Ltac extends_steps :=
  first [ exact extends_refl | exact extends_trans | exact init_subclass_extends
        | exact print_extends | intros; by apply extends_same ].

Lemma exec_body_extends name body st : extends st (exec_body name body st).2.
Proof. apply (exec_body_preserves extends); extends_steps. Qed.

Lemma load_plugin_extends finder name st :
  extends st (load_plugin finder name st).2.
Proof. apply (load_plugin_preserves extends); extends_steps. Qed.

Lemma scan_entries_extends finder entries extension st :
  extends st (scan_entries finder entries extension st).2.
Proof. apply (scan_entries_preserves extends); extends_steps. Qed.

Lemma run_extends ops st : extends st (run ops st).
Proof. apply (run_preserves extends); extends_steps. Qed.

(** No object on the heap is changed or removed. *)

Lemma init_subclass_heap cls kw g st :
  heap st `prefix_of` heap (init_subclass cls kw g st).2.
Proof.
  destruct (init_subclass cls kw g st) as [[inst|e] st'] eqn:H; simpl.
  - destruct (init_subclass_Ok _ _ _ _ _ _ H)
      as (name & module & _ & _ & _ & [[_ ->]|[_ Ht]]); [done|].
    destruct (transform_uncached_Ok _ _ _ _ _ _ _ Ht)
      as (d & _ & _ & _ & _ & Hheap & _).
    rewrite Hheap. by apply prefix_app_r.
  - destruct (init_subclass_Raise _ _ _ _ _ _ H) as (_ & _ & Hheap & _).
    by rewrite Hheap.
Qed.

Ltac heap_steps :=
  first [ exact init_subclass_heap
        | intros; simpl; first [ done | by etrans | by apply prefix_app_r ] ].

Lemma exec_body_heap name body st :
  heap st `prefix_of` heap (exec_body name body st).2.
Proof.
  apply (exec_body_preserves (λ st st', heap st `prefix_of` heap st')); heap_steps.
Qed.

Lemma load_plugin_heap finder name st :
  heap st `prefix_of` heap (load_plugin finder name st).2.
Proof.
  apply (load_plugin_preserves (λ st st', heap st `prefix_of` heap st')); heap_steps.
Qed.

Lemma scan_entries_heap finder entries extension st :
  heap st `prefix_of` heap (scan_entries finder entries extension st).2.
Proof.
  apply (scan_entries_preserves (λ st st', heap st `prefix_of` heap st')); heap_steps.
Qed.

Lemma run_heap ops st : heap st `prefix_of` heap (run ops st).
Proof.
  apply (run_preserves (λ st st', heap st `prefix_of` heap st')); heap_steps.
Qed.




(** The example of the specification: running the class statement of
    [my_module] twice builds one instance, found in both tables. *)
Example my_module_imported_twice :
  let st := run [OpClass MyModule ∅ (module_globals "my_module");
                 OpClass MyModule ∅ (module_globals "my_module")]
                my_module_loading in
  created st = [("my_module", 1)] ∧
  sys_modules st !! "my_module" = Some 1 ∧
  _cache st !! "my_module" = Some 1 ∧
  load_from_cache "my_module" st = Some 1.
Proof. by vm_compute. Qed.

(** ** The plugin scanner *)

(** Only an exception that does not derive from [Exception] leaves the loop. *)
Lemma scan_entries_escapes finder entries extension st e :
  (scan_entries finder entries extension st).1 = Some e → is_Exception e = false.
Proof.
  revert st. induction entries as [|filename rest IH]; intros st; [done|].
  simpl. destruct (endswith filename extension); [|apply IH].
  destruct (load_plugin finder (slice_to_minus3 filename) st) as [[e'|] st'];
    [|apply IH].
  destruct (is_Exception e') eqn:He'; [apply IH|].
  simpl. by intros [= <-].
Qed.

Lemma scan_entries_app finder pre rest extension st st1 :
  scan_entries finder pre extension st = (None, st1) →
  scan_entries finder (pre ++ rest) extension st =
    scan_entries finder rest extension st1.
Proof.
  revert st. induction pre as [|filename pre IH]; intros st H; simpl in *.
  - by simplify_eq.
  - destruct (endswith filename extension); [|by apply IH].
    destruct (load_plugin finder (slice_to_minus3 filename) st) as [[e|] st'];
      [|by apply IH].
    destruct (is_Exception e); [by apply IH|discriminate].
Qed.

(** The scan at a matching entry [module_name ++ extension], for an extension
    of three characters. *)
Lemma scan_entries_at finder pre module_name rest extension st st_before :
  String.length extension = 3 →
  scan_entries finder pre extension st = (None, st_before) →
  scan_entries finder (pre ++ (module_name +:+ extension) :: rest) extension st =
    match load_plugin finder module_name st_before with
    | (None, st_after) => scan_entries finder rest extension st_after
    | (Some e, st_after) =>
        if is_Exception e
        then scan_entries finder rest extension
               (print (failure_notice module_name e) st_after)
        else (Some e, st_after)
    end.
Proof.
  intros H3 Hpre. rewrite (scan_entries_app _ _ _ _ _ _ Hpre). simpl.
  by rewrite endswith_append, slice_to_minus3_append.
Qed.

(** What the first class statement of a module leaves when the module is
    loaded: the instance is registered and lies on the heap right after the
    module object, whatever the rest of the body does. *)
Lemma load_module_transforms finder name cls kw post st d :
  _cache st !! name = None →
  finder name = Some (StmtClass cls kw :: post) →
  super_init_subclass cls kw = None →
  cls_new cls (build_init_args (parameters cls) kw) = Ok d →
  _cache (load_module finder name st).2 !! name = Some (S (length (heap st))) ∧
  heap (load_module finder name st).2 !! S (length (heap st)) =
    Some {| obj_class := cls_name cls;
            obj_dict := dress_instance cls (heap st ++ [module_object name])
                          (length (heap st)) (S (length (heap st))) d |}.
Proof.
  intros Hc Hfind Hhook Hd.
  assert (length (heap st ++ [module_object name]) = S (length (heap st))) as Hlen
    by (rewrite length_app; simpl; lia).
  unfold load_module. rewrite Hfind. simpl.
  rewrite (init_subclass_resolved cls kw (module_globals name) _ name
             (length (heap st)) Hhook).
  2: { apply lookup_singleton_eq. }
  2: { simpl. apply lookup_insert_eq. }
  simpl. rewrite Hc. unfold transform_uncached. rewrite Hd. simpl. rewrite Hlen.
  match goal with
  | |- context [exec_body name post ?s] =>
      pose proof (exec_body_extends name post s) as [_ Hsub];
      pose proof (exec_body_heap name post s) as Hpre;
      assert (_cache s !! name = Some (S (length (heap st)))) as Hc2
        by (simpl; apply lookup_insert_eq);
      assert (heap s !! S (length (heap st)) =
                Some {| obj_class := cls_name cls;
                        obj_dict := dress_instance cls
                                      (heap st ++ [module_object name])
                                      (length (heap st)) (S (length (heap st))) d |})
        as Hh2
        by (simpl; rewrite lookup_app_r by (rewrite Hlen; lia);
            by rewrite Hlen, Nat.sub_diag);
      destruct (exec_body name post s) as [[e|] st']
  end; simpl in *.
  - split; [by eapply lookup_weaken|by eapply prefix_lookup_Some].
  - split; [by eapply lookup_weaken|by eapply prefix_lookup_Some].
Qed.

(** The same through line 204, for a module name that has no dot. *)
Lemma load_plugin_transforms finder name cls kw post st d :
  name ≠ "" → before_first_dot name = None →
  sys_modules st !! name = None →
  _cache st !! name = None →
  finder name = Some (StmtClass cls kw :: post) →
  super_init_subclass cls kw = None →
  cls_new cls (build_init_args (parameters cls) kw) = Ok d →
  _cache (load_plugin finder name st).2 !! name = Some (S (length (heap st))) ∧
  heap (load_plugin finder name st).2 !! S (length (heap st)) =
    Some {| obj_class := cls_name cls;
            obj_dict := dress_instance cls (heap st ++ [module_object name])
                          (length (heap st)) (S (length (heap st))) d |}.
Proof.
  intros Hname Hdot Hmod Hc Hfind Hhook Hd.
  pose proof (load_module_transforms finder name cls kw post st d
                Hc Hfind Hhook Hd) as Hload.
  unfold load_plugin. rewrite (import_top_level _ _ _ Hdot).
  unfold import_module. rewrite decide_False by done. rewrite Hmod.
  by destruct (load_module finder name st) as [[module|e] st'].
Qed.

(** C7, amended.  The scan lets no exception deriving from [Exception]
    escape.  With an extension of three characters, take a matching entry
    and the module it names.  When loading it raises an exception deriving
    from [Exception], the failure notice naming the module is printed, the
    scan goes on with the entries that follow, and the notice is in the
    output at the end; an exception that derives from [BaseException] only
    ends the scan there.  When the module is not imported yet and its file
    starts with a class statement whose parent hook and constructor succeed,
    the instance built for it is in the registry, and on the heap, when the
    scan ends. *)
Theorem scanner_resilience finder entries extension st :
  (∀ e, (scan_for_plugins finder (Some entries) extension st).1 = Some e →
        is_Exception e = false) ∧
  (String.length extension = 3 →
   ∀ pre module_name rest st_before,
     entries = pre ++ (module_name +:+ extension) :: rest →
     scan_entries finder pre extension st = (None, st_before) →
     (∀ e st_after,
        load_plugin finder module_name st_before = (Some e, st_after) →
        if is_Exception e
        then scan_for_plugins finder (Some entries) extension st =
               scan_entries finder rest extension
                 (print (failure_notice module_name e) st_after) ∧
             failure_notice module_name e ∈
               stdout (scan_for_plugins finder (Some entries) extension st).2
        else scan_for_plugins finder (Some entries) extension st =
               (Some e, st_after)) ∧
     (∀ cls kw post d,
        module_name ≠ "" → before_first_dot module_name = None →
        sys_modules st_before !! module_name = None →
        _cache st_before !! module_name = None →
        finder module_name = Some (StmtClass cls kw :: post) →
        super_init_subclass cls kw = None →
        cls_new cls (build_init_args (parameters cls) kw) = Ok d →
        load_from_cache module_name
          (scan_for_plugins finder (Some entries) extension st).2 =
          Some (S (length (heap st_before))) ∧
        heap (scan_for_plugins finder (Some entries) extension st).2
          !! S (length (heap st_before)) =
          Some {| obj_class := cls_name cls;
                  obj_dict := dress_instance cls
                                (heap st_before ++ [module_object module_name])
                                (length (heap st_before))
                                (S (length (heap st_before))) d |})).
Proof.
  split.
  { intros e. apply scan_entries_escapes. }
  intros H3 pre module_name rest st_before -> Hpre. simpl.
  rewrite (scan_entries_at _ _ _ _ _ _ _ H3 Hpre). split.
  - intros e st_after Hload. rewrite Hload.
    destruct (is_Exception e); [|done]. split; [done|].
    destruct (scan_entries_extends finder rest extension
                (print (failure_notice module_name e) st_after))
      as [[k Hk] _].
    rewrite Hk. simpl. set_solver.
  - intros cls kw post d Hname Hdot Hmod Hc Hfind Hhook Hd.
    destruct (load_plugin_transforms finder module_name cls kw post st_before d
                Hname Hdot Hmod Hc Hfind Hhook Hd) as [Hreg Hobj].
    unfold load_from_cache.
    destruct (load_plugin finder module_name st_before) as [[e|] st_after];
      simpl in Hreg, Hobj.
    + destruct (is_Exception e).
      * destruct (scan_entries_extends finder rest extension
                    (print (failure_notice module_name e) st_after))
          as [_ Hsub].
        pose proof (scan_entries_heap finder rest extension
                      (print (failure_notice module_name e) st_after)) as Hpre'.
        split; [by eapply lookup_weaken|by eapply prefix_lookup_Some].
      * done.
    + destruct (scan_entries_extends finder rest extension st_after) as [_ Hsub].
      pose proof (scan_entries_heap finder rest extension st_after) as Hpre'.
      split; [by eapply lookup_weaken|by eapply prefix_lookup_Some].
Qed.

(** The scenario of the specification: [bad.py] raises [ValueError] while it
    is imported, [good.py] defines [MyModule]. *)
Lemma scanner_resilience_witness :
  let r := scan_for_plugins example_finder (Some ["bad.py"; "good.py"]) ".py"
             initial_state in
  failure_notice "bad" (Exn ExcValueError "boom" None) ∈ stdout r.2 ∧
  load_from_cache "good" r.2 = Some 2.
Proof.
  intros r.
  destruct (scanner_resilience example_finder ["bad.py"; "good.py"] ".py"
              initial_state) as [_ H].
  specialize (H eq_refl). split.
  - destruct (H [] "bad" ["good.py"] initial_state eq_refl eq_refl) as [Hbad _].
    exact (proj2 (Hbad (Exn ExcValueError "boom" None)
                    (load_plugin example_finder "bad" initial_state).2 eq_refl)).
  - destruct (H ["bad.py"] "good" []
                (scan_entries example_finder ["bad.py"] ".py" initial_state).2
                eq_refl eq_refl) as [_ Hgood].
    refine (proj1 (Hgood MyModule ∅ [] {[ "name" := VStr "buildeasy" ]}
                     _ _ _ _ _ _ _)); first [done | reflexivity].
Defined.

(** The scenario in both listing orders: the failing file gets its notice,
    the other file's instance is registered, and the scan returns.  The file
    that imports well gets a notice too, because line 205 calls
    [FileAsClass(module)], which always raises. *)
Example one_failing_one_succeeding :
  let r := scan_for_plugins example_finder (Some ["bad.py"; "good.py"]) ".py"
             initial_state in
  let r' := scan_for_plugins example_finder (Some ["good.py"; "bad.py"]) ".py"
              initial_state in
  r.1 = None ∧
  stdout r.2 = ["Failed to load plugin bad: boom";
                "Failed to load plugin good: FileAsClass() takes no arguments"] ∧
  created r.2 = [("good", 2)] ∧ _cache r.2 !! "good" = Some 2 ∧
  sys_modules r.2 !! "good" = Some 2 ∧
  r'.1 = None ∧
  stdout r'.2 = ["Failed to load plugin good: FileAsClass() takes no arguments";
                 "Failed to load plugin bad: boom"] ∧
  _cache r'.2 !! "good" = Some 1.
Proof. by vm_compute. Qed.

(** C7 as stated fails: a plugin that calls [sys.exit] while it is imported
    raises [SystemExit], which [except Exception] does not catch; the scan
    raises and the entries that follow are never loaded. *)
Lemma scan_aborted_by_SystemExit :
  let r := scan_for_plugins example_finder (Some ["stop.py"; "good.py"]) ".py"
             initial_state in
  r.1 = Some (Exn ExcSystemExit "1" None) ∧ stdout r.2 = [] ∧
  _cache r.2 !! "good" = None.
Proof. by vm_compute. Qed.

(** ** Module names formed by the scanner *)

(** For an extension of three characters, such as the default [".py"],
    [filename[:-3]] is the name without its extension. *)
Lemma slice_strips_three_characters filename extension :
  endswith filename extension = true →
  String.length extension = 3 →
  slice_to_minus3 filename +:+ extension = filename.
Proof.
  intros [Hlen Hsuf]%endswith_spec H3. rewrite H3 in Hlen, Hsuf.
  unfold slice_to_minus3.
  pose proof (substring_split filename (String.length filename - 3)) as Hsplit.
  replace (String.length filename - (String.length filename - 3)) with 3
    in Hsplit by lia.
  rewrite Hsuf in Hsplit. apply Hsplit. lia.
Qed.

(** For an extension of any other length it is not, as soon as the name has
    three characters. *)
Lemma slice_misses_other_lengths filename extension :
  3 ≤ String.length filename →
  String.length extension ≠ 3 →
  slice_to_minus3 filename +:+ extension ≠ filename.
Proof.
  intros Hlen H3 Heq. apply (f_equal String.length) in Heq.
  unfold slice_to_minus3 in Heq.
  rewrite length_append, length_substring_0 in Heq. lia.
Qed.

(** C10 fails on the code: for the entry ["tool.plugin"] and the extension
    [".plugin"] the entry matches, and the module name formed by line 202 is
    ["tool.plu"], not ["tool"]; that is the name handed to [__import__] at
    line 204, and the name the failure notice carries. *)
Theorem module_name_keeps_part_of_long_extension :
  endswith "tool.plugin" ".plugin" = true ∧
  slice_to_minus3 "tool.plugin" = "tool.plu" ∧
  slice_to_minus3 "tool.plugin" +:+ ".plugin" ≠ "tool.plugin" ∧
  ∀ finder st,
    scan_for_plugins finder (Some ["tool.plugin"]) ".plugin" st =
      match load_plugin finder "tool.plu" st with
      | (None, st') => (None, st')
      | (Some e, st') =>
          if is_Exception e
          then (None, print (failure_notice "tool.plu" e) st')
          else (Some e, st')
      end.
Proof. split_and!; [reflexivity|reflexivity|discriminate|done]. Qed.

(** What the import of ["tool.plu"] does.  The import system takes the name
    for a module [plu] in a package [tool].  When the directory holds no
    [tool.py], the import fails on the parent. *)
Example tool_plugin_without_parent :
  let r := scan_for_plugins (λ _, None) (Some ["tool.plugin"]) ".plugin"
             initial_state in
  r.1 = None ∧
  stdout r.2 = ["Failed to load plugin tool.plu: No module named 'tool'"] ∧
  _cache r.2 = ∅.
Proof. by vm_compute. Qed.

(** When the directory holds [tool.py], the parent is imported and
    transformed first, so its instance is registered; the search for [plu]
    then asks that instance for [__path__], which ends in [RecursionError],
    and the notice still names ["tool.plu"]. *)
Example tool_plugin_with_parent :
  let r := load_plugin tool_finder "tool.plu" initial_state in
  exn_cls <$> r.1 = Some ExcRecursionError ∧
  _cache r.2 !! "tool" = Some 1 ∧ sys_modules r.2 !! "tool" = Some 1 ∧
  _cache r.2 !! "tool.plu" = None ∧
  (scan_for_plugins tool_finder (Some ["tool.plugin"]) ".plugin" initial_state).1
    = None.
Proof. by vm_compute. Qed.

(** A parent that is a plain module is no package. *)
Example dotted_name_below_a_module :
  (__import__ (λ name, if decide (name = "plain") then Some [] else None)
     "plain.sub" initial_state).1 =
    Raise (Exn ExcModuleNotFoundError
             "No module named 'plain.sub'; 'plain' is not a package" None).
Proof. by vm_compute. Qed.

(** ** The attribute lookup override *)

Lemma subscript0_not_AttributeError v e :
  subscript0 v = Raise e → is_AttributeError e = false.
Proof.
  destruct v as [| | [|c s] |[|x l]|[|x l]| | | | |]; simpl; intros H;
    by simplify_eq.
Qed.

(** [__getattribute__] never raises [AttributeError]: line 237 cannot be
    reached, because [hasattr] re-enters the method instead of answering. *)
Lemma getattribute_never_AttributeError class_name normal depth name t e t' :
  getattribute class_name normal depth name t = (Raise e, t') →
  is_AttributeError e = false.
Proof.
  revert t e t'. induction depth as [|depth IH]; intros t e t' H; simpl in H.
  - by simplify_eq.
  - destruct (normal t name) as [v|e0]; [discriminate|].
    destruct (is_AttributeError e0) eqn:He0; [|by simplify_eq].
    destruct (getattribute class_name normal depth name (S t))
      as [[v1|e1] t1] eqn:H1.
    + destruct (getattribute class_name normal depth name t1)
        as [[v2|e2] t2] eqn:H2; [|simplify_eq; by eapply IH].
      destruct (is_tuple v2); [|by eapply IH].
      destruct (getattribute class_name normal depth name t2)
        as [[v3|e3] t3] eqn:H3; [|simplify_eq; by eapply IH].
      simplify_eq. by eapply subscript0_not_AttributeError.
    + pose proof (IH _ _ _ H1) as He1. rewrite He1 in H. by simplify_eq.
Qed.

(** C8 fails on the code for the missing attribute.  When every normal lookup
    of [name] raises [AttributeError], that is when the attribute exists
    nowhere, the method does not raise the [AttributeError] of line 237: the
    [hasattr] of line 229 calls the method again, which calls [hasattr]
    again, until the interpreter raises [RecursionError]. *)
Theorem missing_attribute_raises_RecursionError class_name normal depth name t :
  (∀ k, ∃ e, normal k name = Raise e ∧ is_AttributeError e = true) →
  ∃ t', getattribute class_name normal depth name t =
          (Raise (Exn ExcRecursionError "maximum recursion depth exceeded" None), t').
Proof.
  intros Hmissing. revert t.
  induction depth as [|depth IH]; intros t; simpl; [by eexists|].
  destruct (Hmissing t) as (e & -> & ->).
  destruct (IH (S t)) as (t' & ->). simpl. by eexists.
Qed.

Lemma missing_attribute_raises_RecursionError_witness :
  ∃ t', getattribute "MyModule" (dict_lookup "MyModule" {[ "name" := VStr "buildeasy" ]})
          1000 "version" 0 =
          (Raise (Exn ExcRecursionError "maximum recursion depth exceeded" None), t').
Proof.
  refine (missing_attribute_raises_RecursionError "MyModule"
            (dict_lookup "MyModule" {[ "name" := VStr "buildeasy" ]})
            1000 "version" 0 _).
  intros k. eexists. split; reflexivity.
Defined.

(** An attribute that normal lookup finds is returned as it is, tuple or
    not. *)
Lemma getattribute_found class_name normal depth name t v :
  normal t name = Ok v →
  getattribute class_name normal (S depth) name t = (Ok v, S t).
Proof. intros H. simpl. by rewrite H. Qed.

(** The first half of C8 holds: when normal lookup fails once and the
    attribute is there on every later lookup, a tuple gives its first element
    and any other value is returned as found. *)
Lemma getattribute_found_on_recheck class_name normal depth name t e v :
  normal t name = Raise e → is_AttributeError e = true →
  (∀ k, normal (S t + k) name = Ok v) →
  getattribute class_name normal (S (S depth)) name t =
    (if is_tuple v then subscript0 v else Ok v, 4 + t).
Proof.
  intros Hfail He Hthen.
  assert (∀ k, getattribute class_name normal (S depth) name (S t + k) =
               (Ok v, S (S t + k))) as Hnested
    by (intros k; by apply getattribute_found).
  change (getattribute class_name normal (S (S depth)) name t) with
    (match normal t name with
     | Ok v => (Ok v, S t)
     | Raise e =>
         if is_AttributeError e then
           match getattribute class_name normal (S depth) name (S t) with
           | (Ok _, t) =>
               match getattribute class_name normal (S depth) name t with
               | (Raise e, t) => (Raise e, t)
               | (Ok v, t) =>
                   if is_tuple v then
                     match getattribute class_name normal (S depth) name t with
                     | (Raise e, t) => (Raise e, t)
                     | (Ok v, t) => (subscript0 v, t)
                     end
                   else getattribute class_name normal (S depth) name t
               end
           | (Raise e, t) =>
               if is_AttributeError e then
                 (Raise (Exn ExcAttributeError
                           ("'" +:+ class_name +:+ "' object has no attribute '"
                              +:+ name +:+ "'") None), t)
               else (Raise e, t)
           end
         else (Raise e, S t)
     end).
  rewrite Hfail, He.
  pose proof (Hnested 0) as H0. rewrite Nat.add_0_r in H0. rewrite H0.
  pose proof (Hnested 1) as H1.
  replace (S t + 1) with (S (S t)) in H1 by lia. rewrite H1.
  pose proof (Hnested 2) as H2.
  replace (S t + 2) with (S (S (S t))) in H2 by lia.
  destruct (is_tuple v); by rewrite H2.
Qed.

(** ** The serializer *)

Lemma dict_get_set name v items : dict_get name (dict_set name v items) = Some v.
Proof.
  induction items as [|[k w] items IH]; simpl.
  - by rewrite decide_True.
  - case_decide; simpl.
    + by rewrite decide_True.
    + by rewrite decide_False.
Qed.

Lemma class_getattr_setattr cls name v :
  class_getattr (class_setattr cls name v) name = Ok v.
Proof.
  unfold class_getattr, class_setattr, cls_mro, cls_self. simpl.
  by rewrite dict_get_set.
Qed.

(** C9 fails on the code.  [save_to_file] is a class method and reads
    [cls.instance] on the class, while line 89 of the transformer stores the
    instance under [instance] in the instance's own attributes.  For a class
    that has no [instance] attribute of its own or inherited, the call made
    after the transformation opens the file, which empties it, and raises
    [AttributeError]; nothing is written, and [load_from_file] then fails on
    the empty file. *)
Theorem save_to_file_finds_no_instance pickle cls kw g st inst st' filename :
  init_subclass cls kw g st = (Ok inst, st') →
  mro_lookup "instance" (cls_mro cls) = None →
  save_to_file pickle cls filename st' =
    (Raise (Exn ExcAttributeError
              ("type object '" +:+ cls_name cls +:+ "' has no attribute 'instance'")
              None),
     set_files <[filename := FileEmpty]> st') ∧
  (load_from_file pickle cls filename (save_to_file pickle cls filename st').2).1 =
    Raise (Exn ExcEOFError "Ran out of input" None).
Proof.
  intros _ Hnone.
  assert (save_to_file pickle cls filename st' =
            (Raise (Exn ExcAttributeError
                      ("type object '" +:+ cls_name cls +:+
                         "' has no attribute 'instance'") None),
             set_files <[filename := FileEmpty]> st')) as Hsave.
  { unfold save_to_file, class_getattr. by rewrite Hnone. }
  split; [done|]. rewrite Hsave. unfold load_from_file. simpl.
  rewrite lookup_insert_eq. by rewrite decide_True.
Qed.

Lemma save_to_file_finds_no_instance_witness :
  let st' := (init_subclass MyModule ∅ (module_globals "my_module")
                my_module_loading).2 in
  save_to_file refusing_pickle MyModule "state.pkl" st' =
    (Raise (Exn ExcAttributeError
              "type object 'MyModule' has no attribute 'instance'" None),
     set_files <[ "state.pkl" := FileEmpty ]> st') ∧
  (load_from_file refusing_pickle MyModule "state.pkl"
     (save_to_file refusing_pickle MyModule "state.pkl" st').2).1 =
    Raise (Exn ExcEOFError "Ran out of input" None).
Proof.
  intros st'.
  refine (save_to_file_finds_no_instance refusing_pickle MyModule ∅
            (module_globals "my_module") my_module_loading 1 st' "state.pkl" _ _).
  - vm_compute. reflexivity.
  - reflexivity.
Defined.

(** The instance of [MyModule] does carry the reference, in its own
    attributes, next to what the constructor and lines 74-100 put there. *)
Example MyModule_instance :
  ∃ o, heap (init_subclass MyModule ∅ (module_globals "my_module")
               my_module_loading).2 !! 1 = Some o ∧
       obj_class o = "MyModule" ∧
       obj_dict o !! "instance" = Some (VRef 1) ∧
       obj_dict o !! "name" = Some (VStr "buildeasy") ∧
       obj_dict o !! "__all__" = Some (VList [VStr "greet"; VStr "instance"]) ∧
       obj_dict o !! "__name__" = Some (VStr "my_module") ∧
       obj_dict o !! "__file__" = Some (VStr "my_module.py") ∧
       obj_dict o !! "add_dynamic_method" =
         Some (VFunction "FileAsClass.add_dynamic_method") ∧
       obj_dict o !! "greet" = None.
Proof. eexists. split; [reflexivity|]. by vm_compute. Qed.

(** ** The module table and the import system *)

(** The module table is not the transformer's alone.  When the body of a
    module raises after its class statement, the import system removes the
    module's entry again; the registry keeps the instance, and importing the
    module once more runs the class statement on the cached path, with a new
    module object in the table. *)
Example registry_outlives_failed_import :
  let r := import_module late_failing "late" initial_state in
  r.1 = Raise (Exn ExcValueError "late failure" None) ∧
  _cache r.2 !! "late" = Some 1 ∧
  sys_modules r.2 !! "late" = None ∧
  created (import_module late_failing "late" r.2).2 = [("late", 1)].
Proof. by vm_compute. Qed.

(** * Further properties of the code *)

Set Warnings "-clear-no-such-hyp".

(** ** What the transformer leaves on the instance *)

Lemma inject_static_and_class_methods_writes cls d :
  inject_static_and_class_methods cls d = apply_writes (static_class_writes cls) d.
Proof.
  unfold inject_static_and_class_methods, static_class_writes, apply_writes.
  generalize (cls_dict cls). intros items. revert d.
  induction items as [|item items IH]; intros d; [done|].
  simpl. rewrite IH, filter_cons.
  destruct (is_staticmethod item.2) eqn:Hs.
  - by rewrite decide_True by done.
  - destruct (is_classmethod item.2) eqn:Hc.
    + by rewrite decide_True by done.
    + by rewrite decide_False by (by intros ?).
Qed.

Lemma copy_module_attributes_lookup h module (d : gmap string value) n :
  copy_module_attributes h module d !! n =
    if decide (n ∈ module_attributes)
    then Some (getattr_or_None h module n)
    else d !! n.
Proof.
  unfold copy_module_attributes, module_attributes, setattr. simpl.
  rewrite !lookup_insert.
  repeat case_decide; subst; try done; set_solver.
Qed.

(** The ancestor walk never writes a name that starts with an underscore. *)
Lemma ancestor_writes_private cls n :
  startswith n "_" = true → last_write n (ancestor_writes cls) = None.
Proof.
  intros Hn. apply last_write_None. intros v Hv.
  unfold ancestor_writes in Hv.
  apply list_elem_of_In, in_flat_map in Hv as (C & _ & Hv).
  apply list_elem_of_In, list_elem_of_filter in Hv as [Hpub _].
  unfold is_public_callable in Hpub. simpl in Hpub.
  rewrite Hn in Hpub. by destruct (callable v).
Qed.

(** Every attribute of the finished instance, by the step that wrote it
    last: the ancestor walk, the module attributes, the self reference, the
    capability list, the static and class methods, the constructor. *)
Lemma dress_instance_lookup cls h module inst d n :
  dress_instance cls h module inst d !! n =
    match last_write n (ancestor_writes cls) with
    | Some w => Some w
    | None =>
        if decide (n ∈ module_attributes) then Some (getattr_or_None h module n)
        else if decide (n = "instance") then Some (VRef inst)
        else if decide (n = "__all__")
             then Some (VList (VStr <$> public_methods cls ++ ["instance"]))
        else match last_write n (static_class_writes cls) with
             | Some w => Some w
             | None => d !! n
             end
    end.
Proof.
  unfold dress_instance.
  rewrite merge_ancestors_writes, apply_writes_lookup.
  destruct (last_write n (ancestor_writes cls)); [done|].
  rewrite copy_module_attributes_lookup. case_decide; [done|].
  unfold setattr. rewrite !lookup_insert.
  repeat case_decide; try congruence.
  by rewrite inject_static_and_class_methods_writes, apply_writes_lookup.
Qed.

(** A call that builds an instance went through every guard, and stores the
    dressed instance at the end of the heap. *)
Lemma init_subclass_built cls kw g st inst st' :
  init_subclass cls kw g st = (Ok inst, st') →
  new_instantiations st st' ≠ [] →
  ∃ name module d,
    reaches_instantiation cls kw g st name module ∧
    cls_new cls (build_init_args (parameters cls) kw) = Ok d ∧
    inst = length (heap st) ∧
    heap st' = heap st ++
      [{| obj_class := cls_name cls;
          obj_dict := dress_instance cls (heap st) module inst d |}] ∧
    sys_modules st' = <[name := inst]> (sys_modules st) ∧
    _cache st' = <[name := inst]> (_cache st) ∧
    stdout st' = stdout st ∧ files st' = files st.
Proof.
  intros H Hnew.
  destruct (init_subclass_Ok _ _ _ _ _ _ H)
    as (name & module & Hhook & Hname & Hmod & [[_ ->]|[Hc Ht]]).
  - destruct Hnew. unfold new_instantiations. by rewrite drop_all.
  - destruct (transform_uncached_Ok _ _ _ _ _ _ _ Ht)
      as (d & Hd & Hinst & Hsm & Hca & Hheap & _ & Hout & Hfiles).
    exists name, module, d. by split_and!.
Qed.

Lemma built_instance_lookup st st' o' inst :
  inst = length (heap st) → heap st' = heap st ++ [o'] →
  heap st' !! inst = Some o'.
Proof.
  intros -> ->. rewrite lookup_app_r by done. by rewrite Nat.sub_diag.
Qed.

(** The capability list.  After a transformation the instance's [__all__] is
    the list of the names bound to public callables in the class's own
    [__dict__], in definition order, followed by ["instance"]; a name is
    listed exactly when the class binds it to a callable and it does not
    start with an underscore.  No later step overwrites the list. *)
Theorem capability_list cls kw g st inst st' :
  init_subclass cls kw g st = (Ok inst, st') →
  new_instantiations st st' ≠ [] →
  ∃ o, heap st' !! inst = Some o ∧
       obj_dict o !! "__all__" =
         Some (VList (VStr <$> public_methods cls ++ ["instance"])) ∧
       ∀ n, n ∈ public_methods cls ↔
            ∃ v, (n, v) ∈ cls_dict cls ∧ callable v = true ∧
                 startswith n "_" = false.
Proof.
  intros H Hnew.
  destruct (init_subclass_built _ _ _ _ _ _ H Hnew)
    as (name & module & d & _ & _ & Hinst & Hheap & _).
  eexists. split; [by eapply built_instance_lookup|]. split.
  - simpl. rewrite dress_instance_lookup.
    rewrite ancestor_writes_private by done.
    rewrite decide_False by (unfold module_attributes; set_solver).
    rewrite decide_False by done. by rewrite decide_True.
  - intros n. unfold public_methods. rewrite list_elem_of_fmap. split.
    + intros ([n' v] & -> & [Hpub Hin]%list_elem_of_filter).
      exists v. unfold is_public_callable in Hpub. simpl in *.
      apply andb_true_iff in Hpub as [Hc Hu].
      split_and!; [done..|]. by apply negb_true_iff.
    + intros (v & Hin & Hc & Hu). exists (n, v). split; [done|].
      apply list_elem_of_filter. split; [|done].
      unfold is_public_callable. simpl. by rewrite Hc, Hu.
Qed.

Lemma capability_list_witness :
  ∃ o, heap (init_subclass Tools ∅ (module_globals "tools") tools_loading).2 !! 1
         = Some o ∧
       obj_dict o !! "__all__" =
         Some (VList [VStr "run"; VStr "parse"; VStr "instance"]).
Proof.
  destruct (capability_list Tools ∅ (module_globals "tools") tools_loading 1
              (init_subclass Tools ∅ (module_globals "tools") tools_loading).2)
    as (o & Ho & Hall & _).
  - vm_compute. reflexivity.
  - by vm_compute.
  - exists o. split; [exact Ho|exact Hall].
Defined.

(** The identity fields.  After a transformation each of [__name__],
    [__package__], [__loader__], [__spec__] and [__file__] on the instance is
    what the module object found in [sys.modules] had under that name before
    the call, and [None] where the module had nothing.  No later step
    overwrites them. *)
Theorem module_attributes_copied cls kw g st inst st' attr :
  init_subclass cls kw g st = (Ok inst, st') →
  new_instantiations st st' ≠ [] →
  attr ∈ module_attributes →
  ∃ name module o,
    g !! "__name__" = Some (VStr name) ∧
    sys_modules st !! name = Some module ∧
    heap st' !! inst = Some o ∧
    obj_dict o !! attr =
      Some (match heap st !! module with
            | Some module_object => default VNone (obj_dict module_object !! attr)
            | None => VNone
            end).
Proof.
  intros H Hnew Hattr.
  destruct (init_subclass_built _ _ _ _ _ _ H Hnew)
    as (name & module & d & (_ & Hname & Hmod & _) & _ & Hinst & Hheap & _).
  eexists name, module, _. split_and!; [done..|by eapply built_instance_lookup|].
  simpl. rewrite dress_instance_lookup.
  rewrite ancestor_writes_private.
  - by rewrite decide_True.
  - unfold module_attributes in Hattr.
    repeat (apply elem_of_cons in Hattr as [->|Hattr]; [done|]).
    by apply elem_of_nil in Hattr.
Qed.

Lemma module_attributes_copied_witness :
  ∃ name module o,
    module_globals "tools" !! "__name__" = Some (VStr name) ∧
    sys_modules tools_loading !! name = Some module ∧
    heap (init_subclass Tools ∅ (module_globals "tools") tools_loading).2 !! 1
      = Some o ∧
    obj_dict o !! "__loader__" =
      Some (match heap tools_loading !! module with
            | Some module_object => default VNone (obj_dict module_object !! "__loader__")
            | None => VNone
            end).
Proof.
  refine (module_attributes_copied Tools ∅ (module_globals "tools") tools_loading 1
            _ "__loader__" _ _ _).
  - vm_compute. reflexivity.
  - by vm_compute.
  - unfold module_attributes. do 2 apply list_elem_of_further.
    apply list_elem_of_here.
Defined.

(** The module of [Tools] has a [__file__] and no [__loader__]. *)
Example Tools_identity_fields :
  ∃ o, heap (init_subclass Tools ∅ (module_globals "tools") tools_loading).2 !! 1
         = Some o ∧
       obj_dict o !! "__file__" = Some (VStr "tools.py") ∧
       obj_dict o !! "__loader__" = Some VNone.
Proof. eexists. split; [reflexivity|]. by vm_compute. Qed.

(** The self reference.  After a transformation the instance's [instance]
    attribute refers to the instance itself, unless an ancestor binds a public
    callable to the name [instance]: the ancestor walk then replaces the
    reference by that callable. *)
Theorem self_reference cls kw g st inst st' :
  init_subclass cls kw g st = (Ok inst, st') →
  new_instantiations st st' ≠ [] →
  ∃ o, heap st' !! inst = Some o ∧
       obj_dict o !! "instance" =
         Some (default (VRef inst) (last_write "instance" (ancestor_writes cls))).
Proof.
  intros H Hnew.
  destruct (init_subclass_built _ _ _ _ _ _ H Hnew)
    as (name & module & d & _ & _ & Hinst & Hheap & _).
  eexists. split; [by eapply built_instance_lookup|].
  simpl. rewrite dress_instance_lookup.
  destruct (last_write "instance" (ancestor_writes cls)); [done|].
  rewrite decide_False by (unfold module_attributes; set_solver).
  by rewrite decide_True.
Qed.

Lemma self_reference_witness :
  ∃ o, heap (init_subclass MyModule ∅ (module_globals "my_module")
               my_module_loading).2 !! 1 = Some o ∧
       obj_dict o !! "instance" =
         Some (default (VRef 1) (last_write "instance" (ancestor_writes MyModule))).
Proof.
  refine (self_reference MyModule ∅ (module_globals "my_module") my_module_loading
            1 _ _ _).
  - vm_compute. reflexivity.
  - by vm_compute.
Defined.

(** The constructor's attributes.  An attribute the constructor set is still
    on the instance after the transformation, with its value, and a name the
    constructor did not set stays unset, as long as the name is none of the
    seven names the transformer sets, no static or class method of the class
    and no public callable of an ancestor. *)
Theorem constructor_attributes_kept cls kw g st inst st' n :
  init_subclass cls kw g st = (Ok inst, st') →
  new_instantiations st st' ≠ [] →
  n ∉ "instance" :: "__all__" :: module_attributes →
  last_write n (static_class_writes cls) = None →
  last_write n (ancestor_writes cls) = None →
  ∃ o d, heap st' !! inst = Some o ∧
         cls_new cls (build_init_args (parameters cls) kw) = Ok d ∧
         obj_dict o !! n = d !! n.
Proof.
  intros H Hnew Hn Hstatic Hanc.
  destruct (init_subclass_built _ _ _ _ _ _ H Hnew)
    as (name & module & d & _ & Hd & Hinst & Hheap & _).
  eexists _, d. split_and!; [by eapply built_instance_lookup|done|].
  simpl. rewrite dress_instance_lookup, Hanc, Hstatic.
  rewrite !decide_False; [done|set_solver..].
Qed.

Lemma constructor_attributes_kept_witness :
  ∃ o d, heap (init_subclass Tools ∅ (module_globals "tools") tools_loading).2 !! 1
           = Some o ∧
         cls_new Tools (build_init_args (parameters Tools) ∅) = Ok d ∧
         obj_dict o !! "version" = d !! "version".
Proof.
  refine (constructor_attributes_kept Tools ∅ (module_globals "tools") tools_loading
            1 _ "version" _ _ _ _ _).
  - vm_compute. reflexivity.
  - by vm_compute.
  - unfold module_attributes. intros Hin.
    repeat (apply elem_of_cons in Hin as [Hin|Hin]; [discriminate|]).
    by apply elem_of_nil in Hin.
  - reflexivity.
  - reflexivity.
Defined.

(** A field the constructor sets under the name of an inherited public method
    is replaced by the method: [Tools] sets [self.describe], and [Base]
    defines [describe]. *)
Example Tools_field_replaced_by_inherited_method :
  ∃ o, heap (init_subclass Tools ∅ (module_globals "tools") tools_loading).2 !! 1
         = Some o ∧
       obj_dict o !! "version" = Some (VInt 3) ∧
       obj_dict o !! "describe" = Some (VFunction "Base.describe").
Proof. eexists. split; [reflexivity|]. by vm_compute. Qed.

(** Static and class methods.  A static or class method of the class's own
    [__dict__] is stored on the instance as the descriptor object itself, not
    as a function: for a class method that is an object that cannot be
    called.  This holds for a name that is none of the seven names the
    transformer sets afterwards and no public callable of an ancestor. *)
Theorem static_and_class_methods_injected cls kw g st inst st' n v :
  init_subclass cls kw g st = (Ok inst, st') →
  new_instantiations st st' ≠ [] →
  NoDup (cls_dict cls).*1 →
  (n, v) ∈ cls_dict cls →
  is_staticmethod v || is_classmethod v = true →
  n ∉ "instance" :: "__all__" :: module_attributes →
  last_write n (ancestor_writes cls) = None →
  ∃ o, heap st' !! inst = Some o ∧ obj_dict o !! n = Some v ∧
       (is_classmethod v = true → callable v = false).
Proof.
  intros H Hnew Hnd Hin Hsc Hn Hanc.
  destruct (init_subclass_built _ _ _ _ _ _ H Hnew)
    as (name & module & d & _ & _ & Hinst & Hheap & _).
  eexists. split_and!; [by eapply built_instance_lookup| |by destruct v].
  simpl. rewrite dress_instance_lookup, Hanc.
  rewrite !decide_False; [|set_solver..].
  rewrite (last_write_NoDup n v); [done| |].
  - eapply sublist_NoDup; [exact Hnd|]. apply fmap_sublist, sublist_filter.
  - apply list_elem_of_filter. by split.
Qed.

Lemma static_and_class_methods_injected_witness :
  ∃ o, heap (init_subclass Tools ∅ (module_globals "tools") tools_loading).2 !! 1
         = Some o ∧
       obj_dict o !! "create" = Some (VClassMethod "Tools.create") ∧
       (is_classmethod (VClassMethod "Tools.create") = true →
        callable (VClassMethod "Tools.create") = false).
Proof.
  refine (static_and_class_methods_injected Tools ∅ (module_globals "tools")
            tools_loading 1 _ "create" (VClassMethod "Tools.create")
            _ _ _ _ _ _ _).
  - vm_compute. reflexivity.
  - by vm_compute.
  - apply (bool_decide_unpack _). by vm_compute.
  - vm_compute. do 5 apply list_elem_of_further. apply list_elem_of_here.
  - reflexivity.
  - unfold module_attributes. intros Hin.
    repeat (apply elem_of_cons in Hin as [Hin|Hin]; [discriminate|]).
    by apply elem_of_nil in Hin.
  - reflexivity.
Defined.

(** ** The arguments of the constructor call *)

Lemma foldl_init_args_is_Some params kw (acc : gmap string value) k :
  is_Some (foldl (λ init_args param, <[p_name param := init_arg kw param]> init_args)
                 acc params !! k) ↔
  is_Some (acc !! k) ∨ k ∈ p_name <$> params.
Proof.
  revert acc. induction params as [|q params IH]; intros acc; simpl.
  - rewrite elem_of_nil. naive_solver.
  - rewrite IH, elem_of_cons, lookup_insert.
    case_decide; subst; naive_solver.
Qed.

(** Exactly the declared parameters.  When the transformer reaches the
    constructor, it calls it with one keyword argument for each declared
    parameter after the first, valued by lines 60-65 (the keyword of the
    class statement, else the declared default, else [None]), and with
    nothing else: a keyword of the class statement that names no parameter
    is not passed on.  What the transformer returns, and the instance it
    stores, are what the constructor makes of exactly these arguments. *)
Theorem exactly_the_declared_parameters cls kw g st name module init_args :
  reaches_instantiation cls kw g st name module →
  NoDup (p_name <$> parameters cls) →
  (∀ p, p ∈ parameters cls →
        init_args !! p_name p =
          Some (match kw !! p_name p with
                | Some override => override
                | None =>
                    match p_default p with
                    | Some declared => declared
                    | None => VNone
                    end
                end)) →
  (∀ k, k ∉ p_name <$> parameters cls → init_args !! k = None) →
  match cls_new cls init_args with
  | Ok d =>
      ∃ st',
        init_subclass cls kw g st = (Ok (length (heap st)), st') ∧
        heap st' = heap st ++
          [{| obj_class := cls_name cls;
              obj_dict := dress_instance cls (heap st) module (length (heap st)) d |}]
  | Raise e =>
      (init_subclass cls kw g st).1 =
        Raise (if is_TypeError e
               then Exn ExcTransformationError
                      ("Error instantiating " +:+ cls_name cls +:+ ": " +:+ exn_str e)
                      (Some e)
               else e)
  end.
Proof.
  intros (Hhook & Hname & Hmod & Hc) Hnd Hargs Hnone.
  assert (init_args = build_init_args (parameters cls) kw) as ->.
  { apply map_eq. intros k.
    destruct (decide (k ∈ p_name <$> parameters cls)) as [Hk|Hk].
    - apply list_elem_of_fmap in Hk as (p & -> & Hp).
      rewrite (Hargs p Hp). symmetry. by apply build_init_args_lookup.
    - rewrite (Hnone k Hk). symmetry. unfold build_init_args.
      rewrite foldl_init_args_other by done. apply lookup_empty. }
  rewrite (init_subclass_resolved _ _ _ _ _ _ Hhook Hname Hmod), Hc.
  unfold transform_uncached.
  destruct (cls_new cls (build_init_args (parameters cls) kw)) as [d|e].
  - eexists. split; reflexivity.
  - by destruct (is_TypeError e).
Qed.

Lemma exactly_the_declared_parameters_witness :
  let kw : gmap string value := {[ "name" := VStr "x"; "colour" := VStr "red" ]} in
  let init_args : gmap string value :=
    {[ "name" := VStr "x"; "level" := VInt 1; "owner" := VNone ]} in
  ∃ st',
    init_subclass Mixed kw (module_globals "mixed") mixed_loading = (Ok 1, st') ∧
    heap st' = heap mixed_loading ++
      [{| obj_class := "Mixed";
          obj_dict := dress_instance Mixed (heap mixed_loading) 0 1 init_args |}].
Proof.
  intros kw init_args.
  refine (exactly_the_declared_parameters Mixed kw (module_globals "mixed")
            mixed_loading "mixed" 0 init_args _ _ _ _).
  - repeat split.
  - apply (bool_decide_unpack _). by vm_compute.
  - intros p Hp. unfold parameters in Hp. simpl in Hp.
    repeat (apply elem_of_cons in Hp as [->|Hp]; [reflexivity|]).
    by apply elem_of_nil in Hp.
  - intros k Hk. unfold parameters in Hk. simpl in Hk.
    rewrite !not_elem_of_cons in Hk. destruct Hk as (? & ? & ? & _).
    unfold init_args. rewrite !lookup_insert_ne by done.
    by apply lookup_singleton_ne.
Defined.

(** The keyword [colour] of the class statement does not reach [Mixed], which
    stores the arguments it is given. *)
Example Mixed_unknown_keyword_dropped :
  ∃ o, heap (init_subclass Mixed {[ "name" := VStr "x"; "colour" := VStr "red" ]}
               (module_globals "mixed") mixed_loading).2 !! 1 = Some o ∧
       obj_dict o !! "colour" = None ∧ obj_dict o !! "self" = None ∧
       obj_dict o !! "name" = Some (VStr "x").
Proof. eexists. split; [reflexivity|]. by vm_compute. Qed.

(** Line 69 raising, as lines 70-72 handle it. *)
Lemma constructor_failure_paths cls kw g st name module e :
  reaches_instantiation cls kw g st name module →
  cls_new cls (build_init_args (parameters cls) kw) = Raise e →
  ∃ st',
    init_subclass cls kw g st =
      (Raise (if is_TypeError e
              then Exn ExcTransformationError
                     ("Error instantiating " +:+ cls_name cls +:+ ": " +:+ exn_str e)
                     (Some e)
              else e), st') ∧
    _cache st' = _cache st ∧ sys_modules st' = sys_modules st ∧
    heap st' = heap st.
Proof.
  intros (Hhook & Hname & Hmod & Hc) Hnew.
  rewrite (init_subclass_resolved _ _ _ _ _ _ Hhook Hname Hmod), Hc.
  unfold transform_uncached. rewrite Hnew.
  eexists. split; [by destruct (is_TypeError e)|done].
Qed.

(** A class without a constructor of its own.  When neither the class being
    defined nor any class before [object] in its MRO defines [__init__] or
    [__new__], the signature inspected at line 54 is [object.__init__]'s and
    the call of line 69 is [object]'s construction: the transformer passes
    [args=None] and [kwargs=None] to a constructor that takes no arguments.
    The transformation fails with a [TransformationError], and nothing is
    registered. *)
Theorem class_without_init_is_rejected cls kw g st name module :
  reaches_instantiation cls kw g st name module →
  cls_init_signature cls = object_init_signature →
  (∀ init_args, cls_new cls init_args = object_new (cls_name cls) init_args) →
  ∃ st',
    init_subclass cls kw g st =
      (Raise (Exn ExcTransformationError
                ("Error instantiating " +:+ cls_name cls +:+ ": " +:+
                   cls_name cls +:+ "() takes no arguments")
                (Some (Exn ExcTypeError (cls_name cls +:+ "() takes no arguments")
                         None))), st') ∧
    _cache st' = _cache st ∧ sys_modules st' = sys_modules st ∧
    heap st' = heap st.
Proof.
  intros Hreach Hsig Hnew.
  assert (cls_new cls (build_init_args (parameters cls) kw) =
            Raise (Exn ExcTypeError (cls_name cls +:+ "() takes no arguments") None))
    as Hraise.
  { rewrite Hnew. unfold object_new, parameters. rewrite Hsig. simpl.
    destruct (size _) eqn:Hsize; [|done].
    apply map_size_empty_iff in Hsize.
    apply (f_equal (λ m : gmap string value, m !! "kwargs")) in Hsize.
    unfold build_init_args in Hsize. simpl in Hsize.
    by rewrite lookup_insert_eq in Hsize. }
  destruct (constructor_failure_paths cls kw g st name module _ Hreach Hraise)
    as (st' & H & ?). exists st'. split; [|done]. by rewrite H.
Qed.

Lemma class_without_init_is_rejected_witness :
  ∃ st',
    init_subclass Bare ∅ (module_globals "my_module") my_module_loading =
      (Raise (Exn ExcTransformationError
                "Error instantiating Bare: Bare() takes no arguments"
                (Some (Exn ExcTypeError "Bare() takes no arguments" None))), st') ∧
    _cache st' = _cache my_module_loading ∧
    sys_modules st' = sys_modules my_module_loading ∧
    heap st' = heap my_module_loading.
Proof.
  refine (class_without_init_is_rejected Bare ∅ (module_globals "my_module")
            my_module_loading "my_module" 0 _ _ _).
  - repeat split.
  - reflexivity.
  - reflexivity.
Defined.

(** ** Failure and success of a transformation *)



(** The module table is read before the registry.  When the module name is
    resolved but is not a key of [sys.modules], line 47 raises [KeyError]
    naming the module, even if the registry holds an instance for that
    name: the cached instance is not returned. *)
Theorem module_table_is_read_before_registry cls kw g st name :
  super_init_subclass cls kw = None →
  g !! "__name__" = Some (VStr name) →
  sys_modules st !! name = None →
  init_subclass cls kw g st =
    (Raise (Exn ExcKeyError ("'" +:+ name +:+ "'") None), st).
Proof.
  intros Hhook Hname Hmod. unfold init_subclass.
  rewrite Hhook, Hname. simpl. by rewrite Hmod.
Qed.

Lemma module_table_is_read_before_registry_witness :
  let st := set_sys_modules (delete "my_module")
              (init_subclass MyModule ∅ (module_globals "my_module")
                 my_module_loading).2 in
  _cache st !! "my_module" = Some 1 ∧
  init_subclass MyModule ∅ (module_globals "my_module") st =
    (Raise (Exn ExcKeyError "'my_module'" None), st).
Proof.
  intros st. split; [reflexivity|].
  refine (module_table_is_read_before_registry MyModule ∅
            (module_globals "my_module") st "my_module" _ _ _); reflexivity.
Defined.

(** A transformation touches its own module only.  A call that returns an
    instance changes the module table and the registry under the calling
    module's name at most, changes no object that was on the heap, adds at
    most one object, and prints and writes nothing. *)
Theorem transformation_is_local cls kw g st inst st' :
  init_subclass cls kw g st = (Ok inst, st') →
  ∃ name,
    g !! "__name__" = Some (VStr name) ∧
    (∀ other, other ≠ name →
       sys_modules st' !! other = sys_modules st !! other ∧
       _cache st' !! other = _cache st !! other) ∧
    (∀ l o, heap st !! l = Some o → heap st' !! l = Some o) ∧
    length (heap st') ≤ S (length (heap st)) ∧
    stdout st' = stdout st ∧ files st' = files st.
Proof.
  intros H.
  destruct (init_subclass_Ok _ _ _ _ _ _ H)
    as (name & module & _ & Hname & _ & [[_ ->]|[_ Ht]]).
  - exists name. split_and!; try done. lia.
  - destruct (transform_uncached_Ok _ _ _ _ _ _ _ Ht)
      as (d & _ & _ & Hsm & Hca & Hheap & _ & Hout & Hfiles).
    exists name. split_and!; try done.
    + intros other Hother. rewrite Hsm, Hca.
      by rewrite !lookup_insert_ne.
    + intros l o Hl. rewrite Hheap. by apply lookup_app_l_Some.
    + rewrite Hheap, length_app. simpl. lia.
Qed.

Lemma transformation_is_local_witness :
  ∃ name,
    module_globals "my_module" !! "__name__" = Some (VStr name) ∧
    (∀ other, other ≠ name →
       sys_modules (init_subclass MyModule ∅ (module_globals "my_module")
                      my_module_loading).2 !! other
         = sys_modules my_module_loading !! other ∧
       _cache (init_subclass MyModule ∅ (module_globals "my_module")
                 my_module_loading).2 !! other
         = _cache my_module_loading !! other) ∧
    (∀ l o, heap my_module_loading !! l = Some o →
            heap (init_subclass MyModule ∅ (module_globals "my_module")
                    my_module_loading).2 !! l = Some o) ∧
    length (heap (init_subclass MyModule ∅ (module_globals "my_module")
                    my_module_loading).2) ≤ S (length (heap my_module_loading)) ∧
    stdout (init_subclass MyModule ∅ (module_globals "my_module")
              my_module_loading).2 = stdout my_module_loading ∧
    files (init_subclass MyModule ∅ (module_globals "my_module")
             my_module_loading).2 = files my_module_loading.
Proof.
  refine (transformation_is_local MyModule ∅ (module_globals "my_module")
            my_module_loading 1 _ _).
  vm_compute. reflexivity.
Defined.

(** ** What a run keeps *)

(** Nothing is evicted and nothing is mutated.  Over any sequence of class
    statements, imports, plugin scans, saves and loads, a registry entry stays
    what it is, no object on the heap changes (so a cached instance keeps the
    attributes the transformer gave it), and no printed line is lost. *)
Theorem run_keeps_registry_and_objects ops st :
  _cache st ⊆ _cache (run ops st) ∧
  heap st `prefix_of` heap (run ops st) ∧
  stdout st `prefix_of` stdout (run ops st) ∧
  ∀ name inst o,
    _cache st !! name = Some inst → heap st !! inst = Some o →
    load_from_cache name (run ops st) = Some inst ∧
    heap (run ops st) !! inst = Some o.
Proof.
  destruct (run_extends ops st) as [Hout Hca].
  pose proof (run_heap ops st) as Hheap.
  split_and!; try done.
  intros name inst o Hc Ho. split.
  - unfold load_from_cache. by eapply lookup_weaken.
  - destruct Hheap as [k ->]. by apply lookup_app_l_Some.
Qed.

(** ** Dynamic method injection *)

Lemma getattribute_absent class_name normal depth name t :
  (∀ k, ∃ e, normal k name = Raise e ∧ is_AttributeError e = true) →
  ∃ t', getattribute class_name normal depth name t =
          (Raise (Exn ExcRecursionError "maximum recursion depth exceeded" None), t').
Proof.
  intros Habsent. revert t.
  induction depth as [|depth IH]; intros t; simpl; [by eexists|].
  destruct (Habsent t) as (e & -> & ->).
  destruct (IH (S t)) as (t' & ->). simpl. by eexists.
Qed.

(** On an instance the transformer built, the name [add_dynamic_method] is
    bound in the instance's own attributes to the plain function of
    [FileAsClass], unless an ancestor further down the MRO defines a public
    callable of that name.  A function found there is not bound to the
    instance, so [inst.add_dynamic_method(name, f)] does not pass the
    instance as [cls]. *)
Lemma transformed_instance_holds_the_plain_function cls kw g st inst st' :
  init_subclass cls kw g st = (Ok inst, st') →
  new_instantiations st st' ≠ [] →
  last_write "add_dynamic_method" (ancestor_writes cls) =
    Some (VFunction "FileAsClass.add_dynamic_method") →
  ∃ o, heap st' !! inst = Some o ∧
       obj_dict o !! "add_dynamic_method" =
         Some (VFunction "FileAsClass.add_dynamic_method").
Proof.
  intros H Hnew Hlast.
  destruct (init_subclass_built _ _ _ _ _ _ H Hnew)
    as (name & module & d & _ & _ & Hinst & Hheap & _).
  eexists. split; [by eapply built_instance_lookup|].
  simpl. by rewrite dress_instance_lookup, Hlast.
Qed.

(** The function [FileAsClass.add_dynamic_method] writes through the self
    reference.  Applied to a receiver as its first argument, as in
    [FileAsClass.add_dynamic_method(receiver, name, method)], when the
    receiver's [instance] attribute is found and refers to a heap object, it
    binds the method under the given name in that object's attributes,
    replacing whatever was bound there, and changes nothing else: no other
    attribute of the object, no other object, neither table.  Afterwards a
    lookup of the name in that object's attributes finds the method. *)
Theorem add_dynamic_method_binds
    class_name normal st target ot depth method_name method :
  normal 0 "instance" = Ok (VRef target) →
  heap st !! target = Some ot →
  ∃ st',
    add_dynamic_method class_name normal (S depth) method_name method st
      = (Ok (), st') ∧
    heap st' !! target =
      Some {| obj_class := obj_class ot;
              obj_dict := <[method_name := method]> (obj_dict ot) |} ∧
    (∀ l, l ≠ target → heap st' !! l = heap st !! l) ∧
    length (heap st') = length (heap st) ∧
    sys_modules st' = sys_modules st ∧ _cache st' = _cache st ∧
    (getattribute (obj_class ot) (object_lookup st' target) (S depth)
       method_name 0).1 = Ok method.
Proof.
  intros Hinst Htarget.
  unfold add_dynamic_method. simpl. rewrite Hinst.
  unfold setattr_value. rewrite Htarget.
  eexists. split; [reflexivity|]. simpl.
  assert (target < length (heap st)) as Hlt by by eapply lookup_lt_Some.
  split_and!; try done.
  - by apply list_lookup_insert_eq.
  - intros l Hl. by apply list_lookup_insert_ne.
  - apply length_insert.
  - unfold object_lookup. simpl.
    rewrite list_lookup_insert_eq by done. simpl.
    unfold dict_lookup, setattr. by rewrite lookup_insert_eq.
Qed.

(** [FileAsClass.add_dynamic_method(inst, "name", shout)] for the instance of
    [MyModule]. *)
Lemma add_dynamic_method_binds_witness :
  let st := (init_subclass MyModule ∅ (module_globals "my_module")
               my_module_loading).2 in
  ∃ ot st',
    heap st !! 1 = Some ot ∧
    add_dynamic_method "MyModule" (object_lookup st 1) 1000
      "name" (VFunction "shout") st = (Ok (), st') ∧
    heap st' !! 1 =
      Some {| obj_class := obj_class ot;
              obj_dict := <[ "name" := VFunction "shout" ]> (obj_dict ot) |}.
Proof.
  intros st.
  destruct (heap st !! 1) as [ot|] eqn:Hot; [|by vm_compute in Hot].
  destruct (add_dynamic_method_binds "MyModule" (object_lookup st 1) st 1 ot 999
              "name" (VFunction "shout"))
    as (st' & Hadd & Hheap & _).
  - by vm_compute.
  - exact Hot.
  - exists ot, st'. by split_and!.
Defined.

(** Without the self reference, [add_dynamic_method] cannot find its target:
    on an instance for which every lookup of [instance] fails, the evaluation
    of [cls.instance] ends in [RecursionError], and nothing is changed. *)
Theorem add_dynamic_method_without_reference
    class_name normal st depth method_name method :
  (∀ k, ∃ e, normal k "instance" = Raise e ∧ is_AttributeError e = true) →
  add_dynamic_method class_name normal depth method_name method st =
    (Raise (Exn ExcRecursionError "maximum recursion depth exceeded" None), st).
Proof.
  intros Habsent. unfold add_dynamic_method.
  by destruct (getattribute_absent class_name normal depth "instance" 0 Habsent)
    as (t' & ->).
Qed.

Lemma add_dynamic_method_without_reference_witness :
  add_dynamic_method "MyModule" (dict_lookup "MyModule" {[ "name" := VStr "x" ]})
    1000 "greet" (VFunction "greet") my_module_loading =
    (Raise (Exn ExcRecursionError "maximum recursion depth exceeded" None),
     my_module_loading).
Proof.
  refine (add_dynamic_method_without_reference "MyModule"
            (dict_lookup "MyModule" {[ "name" := VStr "x" ]})
            my_module_loading 1000 "greet" (VFunction "greet") _).
  intros k. eexists. split; reflexivity.
Defined.

(** The target is what [instance] refers to, not the receiver:
    [FileAsClass.add_dynamic_method(inst, "shout", shout)], with the instance
    of [MyModule] for [inst], changes that instance, being its own target. *)
Example add_dynamic_method_on_MyModule :
  let st := (init_subclass MyModule ∅ (module_globals "my_module")
               my_module_loading).2 in
  let r := add_dynamic_method "MyModule" (object_lookup st 1) 1000
             "shout" (VFunction "shout") st in
  r.1 = Ok () ∧
  (obj_dict <$> heap r.2 !! 1) ≫= (.!! "shout") = Some (VFunction "shout") ∧
  (obj_dict <$> heap r.2 !! 1) ≫= (.!! "name") = Some (VStr "buildeasy") ∧
  heap r.2 !! 0 = heap st !! 0.
Proof. by vm_compute. Qed.

(** ** [hasattr] on an instance *)

(** [hasattr] never answers [False].  Whatever the lookups on the instance
    do, [hasattr(instance, name)] either answers [True] or raises: the
    override never raises [AttributeError], the one exception [hasattr] turns
    into [False]. *)
Theorem hasattr_never_False class_name normal depth name t :
  (hasattr class_name normal depth name t).1 ≠ Ok false.
Proof.
  unfold hasattr.
  destruct (getattribute class_name normal depth name t) as [[v|e] t'] eqn:H;
    [done|].
  rewrite (getattribute_never_AttributeError _ _ _ _ _ _ _ H). done.
Qed.

(** ** [__getstate__] and [__setstate__] *)

(** Restoring merges.  [__setstate__] updates the attributes with the saved
    state: a saved attribute takes its saved value, and an attribute that is
    not in the saved state keeps its current value instead of being removed.
    So restoring an object's own state changes nothing, and restoring onto an
    object without attributes gives exactly the saved attributes. *)
Theorem setstate_merges o o' :
  (∀ k, obj_dict (setstate (getstate o) o') !! k =
        match obj_dict o !! k with
        | Some v => Some v
        | None => obj_dict o' !! k
        end) ∧
  setstate (getstate o) o = o ∧
  (obj_dict o' = ∅ → obj_dict (setstate (getstate o) o') = obj_dict o) ∧
  obj_class (setstate (getstate o) o') = obj_class o'.
Proof.
  unfold setstate, getstate. simpl. split_and!.
  - intros k. rewrite lookup_union. by destruct (obj_dict o !! k), (obj_dict o' !! k).
  - destruct o as [c d]. simpl. f_equal. apply map_eq. intros k.
    rewrite lookup_union. by destruct (d !! k).
  - intros ->. apply (right_id_L ∅ (∪)).
  - done.
Qed.

(** ** More on the scanner *)

(** For a three-character extension the name is right. *)
Lemma slice_strips_three_characters_witness :
  slice_to_minus3 "report.py" +:+ ".py" = "report.py".
Proof.
  refine (slice_strips_three_characters "report.py" ".py" _ _); reflexivity.
Defined.

Lemma slice_misses_other_lengths_witness :
  slice_to_minus3 "notes.md" +:+ "s.md" ≠ "notes.md".
Proof.
  refine (slice_misses_other_lengths "notes.md" "s.md" _ _).
  - vm_compute. lia.
  - vm_compute. lia.
Defined.

(** Entries that do not end with the extension play no part in the scan. *)
Theorem scan_ignores_other_entries finder entries extension st :
  scan_entries finder entries extension st =
    scan_entries finder
      (filter (λ filename, endswith filename extension = true) entries)
      extension st.
Proof.
  revert st. induction entries as [|filename rest IH]; intros st; [done|].
  rewrite filter_cons. simpl.
  destruct (endswith filename extension) eqn:Hends.
  - rewrite decide_True by done. simpl. rewrite Hends.
    destruct (load_plugin finder (slice_to_minus3 filename) st) as [[e|] st'];
      [|apply IH].
    destruct (is_Exception e); [apply IH|done].
  - rewrite decide_False by (by intros ?). apply IH.
Qed.





(** ** Importing a transformed module *)


